(** * kerastuner.engine: model instances and their executions

    A shallow embedding of [kerastuner/engine/execution.py] and
    [kerastuner/engine/instance.py].

    Python objects become records, attribute assignment becomes record
    update, and every method is a computation in a state-and-exception
    monad over the pair (receiver, world).  The world holds what lives
    outside the two classes: the clock, the store of callback objects
    (they are shared by reference with the caller) and the trace of calls
    made to Keras, to the file system and to the cloud uploader.

    Metric values are Python floats in the source; here they are exact
    rationals ([Qc]), so rounding is outside the model. *)

From Stdlib Require Import Ascii String QArith Qcanon.
From stdpp Require Import gmap strings list fin_maps pretty numbers sorting.

Set Default Proof Using "Type".
Local Open Scope Z_scope.

(** ** Python values, exceptions and results *)

(** Scalars stored in metadata and hyper-parameter dictionaries. *)
Inductive pyval :=
  | PNone
  | PInt (z : Z)
  | PStr (s : string).

#[global] Instance pyval_eq_dec : EqDecision pyval.
Proof. solve_decision. Defined.

(** [str(v)], as used by the [%s] conversions of the source. *)
Definition py_str (v : pyval) : string :=
  match v with
  | PNone => "None"
  | PInt z => pretty z
  | PStr s => s
  end.

(** The exceptions the two modules can produce.  [Exception] is the base
    class constructed in [InstanceExecution.fit]; [FrameworkError] stands
    for whatever the training call raises. *)
Inductive exn :=
  | Exception (args : list string)
  | AttributeError (obj attr : string)
  | UnboundLocalError (var : string)
  | KeyError (key : string)
  | IndexError (msg : string)
  | TypeError (msg : string)
  | ValueError (msg : string)
  | FrameworkError (msg : string).

#[global] Instance exn_eq_dec : EqDecision exn.
Proof. solve_decision. Defined.

Inductive result (A : Type) :=
  | Ok (a : A)
  | Raise (e : exn).
Arguments Ok {A} a.
Arguments Raise {A} e.

#[global] Instance result_ret : MRet result := λ A a, Ok a.
#[global] Instance result_bind : MBind result := λ A B f r,
  match r with
  | Ok a => f a
  | Raise e => Raise e
  end.

(** ** The monad of methods: state that survives an exception *)

Definition M (S A : Type) : Type := S → result A * S.

#[global] Instance M_ret {S} : MRet (M S) := λ A a s, (Ok a, s).
#[global] Instance M_bind {S} : MBind (M S) := λ A B f m s,
  match m s with
  | (Ok a, s') => f a s'
  | (Raise e, s') => (Raise e, s')
  end.

Definition raise {S A} (e : exn) : M S A := λ s, (Raise e, s).
Definition gets {S A} (f : S → A) : M S A := λ s, (Ok (f s), s).
Definition modify {S} (f : S → S) : M S unit := λ s, (Ok (), f s).
Definition lift {S A} (r : result A) : M S A := λ s, (r, s).

(** [for a in l: body(a)] *)
Fixpoint for_each {S A} (l : list A) (body : A → M S unit) : M S unit :=
  match l with
  | [] => mret ()
  | a :: l' => body a;; for_each l' body
  end.

(** [d[key]] on a dictionary with string keys. *)
Definition getitem {V} (d : gmap string V) (key : string) : result V :=
  match d !! key with
  | Some v => Ok v
  | None => Raise (KeyError key)
  end.

(** ** Strings and paths *)

(** A path component has to be a string. *)
Definition as_str (v : pyval) : result string :=
  match v with
  | PStr s => Ok s
  | _ => Raise (TypeError "expected str, bytes or os.PathLike object")
  end.

(** [pat in s] on strings. *)
Definition contains (pat s : string) : bool :=
  match String.index 0 pat s with
  | Some _ => true
  | None => false
  end.

Fixpoint endswith_sep (s : string) : bool :=
  match s with
  | EmptyString => false
  | String c EmptyString => bool_decide (c = "/"%char)
  | String _ s' => endswith_sep s'
  end.

(** [os.path.join(a, b)] (posixpath, two components). *)
Definition path_join (a b : string) : string :=
  if String.prefix "/" b then b
  else if bool_decide (a = "") || endswith_sep a then a +:+ b
  else a +:+ "/" +:+ b.

(** ["%s-%s-%s" % (a, b, c)] and its four-place sibling. *)
Definition dash3 (a b c : string) : string := a +:+ "-" +:+ b +:+ "-" +:+ c.
Definition dash4 (a b c d : string) : string := dash3 a b c +:+ "-" +:+ d.

(** ** Numbers: the builtins [min], [max] and the NumPy reductions *)

Definition Qc_of_Z (z : Z) : Qc := Q2Qc (inject_Z z).
Definition qmin (a b : Qc) : Qc := if decide (b < a)%Qc then b else a.
Definition qmax (a b : Qc) : Qc := if decide (a < b)%Qc then b else a.

(** [min(data)]: a left-to-right scan keeping the first smallest item;
    an empty argument is a [ValueError]. *)
Definition py_min (data : list Qc) : result Qc :=
  match data with
  | [] => Raise (ValueError "min() arg is an empty sequence")
  | d :: ds => Ok (foldl qmin d ds)
  end.

Definition py_max (data : list Qc) : result Qc :=
  match data with
  | [] => Raise (ValueError "max() arg is an empty sequence")
  | d :: ds => Ok (foldl qmax d ds)
  end.

(** [np.min], [np.max]: the same scan; NumPy also rejects an empty array. *)
Definition np_min (data : list Qc) : result Qc :=
  match data with
  | [] => Raise (ValueError "zero-size array to reduction operation minimum which has no identity")
  | d :: ds => Ok (foldl qmin d ds)
  end.

Definition np_max (data : list Qc) : result Qc :=
  match data with
  | [] => Raise (ValueError "zero-size array to reduction operation maximum which has no identity")
  | d :: ds => Ok (foldl qmax d ds)
  end.

(** [np.sum] on integers. *)
Definition np_sum (l : list Z) : Z := foldr Z.add 0 l.

Definition qsum (data : list Qc) : Qc := foldr Qcplus 0%Qc data.

(** [np.mean]: sum over count.  (On an empty array NumPy yields nan; the
    callers below reach it only after [np.min] has accepted the data.) *)
Definition np_mean (data : list Qc) : Qc :=
  (qsum data / Qc_of_Z (Z.of_nat (length data)))%Qc.

Fixpoint insert_sorted (x : Qc) (l : list Qc) : list Qc :=
  match l with
  | [] => [x]
  | y :: l' => if decide (x ≤ y)%Qc then x :: l else y :: insert_sorted x l'
  end.

Definition sort (l : list Qc) : list Qc := foldr insert_sorted [] l.

(** [np.median]: the middle item of the sorted data, or the mean of the
    two middle items when the count is even. *)
Definition np_median (data : list Qc) : Qc :=
  let s := sort data in
  let n := length s in
  if Nat.even n
  then np_mean [nth (n / 2 - 1) s 0%Qc; nth (n / 2) s 0%Qc]
  else nth (n / 2) s 0%Qc.

(** ** Keras models, callbacks and keyword arguments *)

(** A weight tensor is known by its identity. *)
Definition weight := positive.

(** The attributes of a Keras model that the two modules read or set. *)
Module Model.
Record t := {
  model_id : positive;
  trainable_weights : list weight;
  optimizer : string;
  loss : string;
  metrics : list string;
  loss_weights : option (list Qc);
}.

(** [model.compile(optimizer=.., loss=.., metrics=.., loss_weights=..)] *)
Definition compile (m : t) (opt l : string) (ms : list string)
    (lw : option (list Qc)) : t :=
  {| model_id := model_id m; trainable_weights := trainable_weights m;
     optimizer := opt; loss := l; metrics := ms; loss_weights := lw |}.
End Model.

(** What is passed as [x]: an array, or a generator object. *)
Inductive pydata :=
  | Array (a : list Qc)
  | Generator (g : positive).

(** What is passed as [y]: an array; only its length is ever inspected. *)
Definition ndarray := list Qc.

(** The snapshot built by [Instance.__get_instance_info]. *)
Record InstanceInfo := {
  info_key_metrics : gmap string Qc;
  info_ts : Z;
  info_training_size : Z;
  info_validation_size : Z;
  info_num_executions : nat;
  info_model : string;
  info_batch_size : Z;
  info_model_size : Z;
  info_hyper_parameters : gmap string pyval;
}.

Definition set_info_key_metrics (km : gmap string Qc) (i : InstanceInfo) : InstanceInfo :=
  {| info_key_metrics := km; info_ts := info_ts i;
     info_training_size := info_training_size i;
     info_validation_size := info_validation_size i;
     info_num_executions := info_num_executions i;
     info_model := info_model i; info_batch_size := info_batch_size i;
     info_model_size := info_model_size i;
     info_hyper_parameters := info_hyper_parameters i |}.

(** Callback objects live in a store and are passed by reference.  A
    Keras callback is known by the text of its type and its [log_dir]
    attribute, if it has one. *)
Definition addr := positive.

Inductive Callback :=
  | KerasCallback (type_str : string) (log_dir : option string)
  | TunerCallback (instance_info : InstanceInfo)
      (key_metrics : list (string * string)) (meta_data : gmap string pyval).

(** [str(type(callback))] *)
Definition type_str (c : Callback) : string :=
  match c with
  | KerasCallback ty _ => ty
  | TunerCallback _ _ _ => "<class 'kerastuner.engine.tunercallback.TunerCallback'>"
  end.

(** [**kwargs]: the three keywords the code looks at, and the rest. *)
Record Kwargs := {
  kw_callbacks : option (list addr);
  kw_validation_data : option (pydata * ndarray);
  kw_initial_epoch : option Z;
  kw_others : gmap string pyval;
}.

Definition set_kw_callbacks (cbs : list addr) (kw : Kwargs) : Kwargs :=
  {| kw_callbacks := Some cbs; kw_validation_data := kw_validation_data kw;
     kw_initial_epoch := kw_initial_epoch kw; kw_others := kw_others kw |}.

(** [f(.., initial_epoch=n, **kwargs)]: a keyword given twice is a
    [TypeError] raised at the call, before the callee runs. *)
Definition with_initial_epoch (n : Z) (kw : Kwargs) : result Kwargs :=
  match kw_initial_epoch kw with
  | Some _ =>
      Raise (TypeError "fit() got multiple values for keyword argument 'initial_epoch'")
  | None =>
      Ok {| kw_callbacks := kw_callbacks kw;
            kw_validation_data := kw_validation_data kw;
            kw_initial_epoch := Some n; kw_others := kw_others kw |}
  end.

(** The object returned by a training call; [results.history]. *)
Record History := { History_history : gmap string (list Qc) }.

(** The two training entry points with the arguments they receive. *)
Inductive TrainCall :=
  | ModelFit (m : Model.t) (x : pydata) (y : ndarray) (kwargs : Kwargs)
  | ModelFitGenerator (m : Model.t) (x : pydata) (kwargs : Kwargs).

(** ** Reports *)

Record MinMax := { mm_min : Qc; mm_max : Qc }.

Record Stats := { st_min : Qc; st_max : Qc; st_mean : Qc; st_median : Qc }.

Record ExecutionInfo := {
  ei_num_epochs : Z;
  ei_history : gmap string (list Qc);
  ei_loss_fn : string;
  ei_loss_weigths : option (list Qc);
  ei_meta_data : gmap string pyval;
}.

(** The dictionary assembled by [Instance.record_results]: the snapshot
    plus the keys [executions], [meta_data] and [metrics]. *)
Record Report := {
  rp_info : InstanceInfo;
  rp_executions : list ExecutionInfo;
  rp_meta_data : gmap string pyval;
  rp_metrics : gmap string (gmap string Stats);
}.

(** ** The world outside *)

Inductive Content :=
  | ConfigJson (doc : string)
  | ResultsJson (r : Report).

Inductive Event :=
  | EvCloneModel (m : Model.t)
  | EvSummary (m : Model.t)
  | EvMultiGpu (m : Model.t) (gpus : Z)
  | EvTrain (c : TrainCall)
  | EvWrite (path : string) (content : Content)
  | EvSaveWeights (m : Model.t) (path : string)
  | EvCloudSave (local_path ftype : string) (meta_data : gmap string pyval).

Definition is_train (e : Event) : bool :=
  match e with EvTrain _ => true | _ => false end.

Record World := {
  clock_reads : nat;
  store : gmap addr Callback;
  trace : list Event;
}.

Definition tick (w : World) : World :=
  {| clock_reads := S (clock_reads w); store := store w; trace := trace w |}.
Definition set_store (h : gmap addr Callback) (w : World) : World :=
  {| clock_reads := clock_reads w; store := h; trace := trace w |}.
Definition log (e : Event) (w : World) : World :=
  {| clock_reads := clock_reads w; store := store w; trace := trace w ++ [e] |}.

(** The collaborators.  Each is a function of its arguments and of the
    world at the time of the call.  Only the training call is given the
    chance to fail; the others are taken to succeed. *)
Class Backend := {
  (** [int(time.time())] at the n-th reading of the clock *)
  time_time : nat → Z;
  (** [keras.models.clone_model] *)
  clone_model : World → Model.t → Model.t;
  (** [model.to_json()] *)
  to_json : Model.t → string;
  (** [K.count_params] *)
  count_params : weight → Z;
  (** [model.fit] and [model.fit_generator] *)
  train : World → TrainCall → result History;
}.

(** [copy.deepcopy] of a list of callback objects: every distinct object
    is copied once into a fresh cell ([memo] keeps the aliasing among the
    copies); the originals are left alone.  References that are not in
    the store stand for objects deepcopy returns as they are. *)
Fixpoint deepcopy (l : list addr) (memo : gmap addr addr)
    (h : gmap addr Callback) : list addr * gmap addr Callback :=
  match l with
  | [] => ([], h)
  | a :: l' =>
      match memo !! a with
      | Some a' => let '(r, h') := deepcopy l' memo h in (a' :: r, h')
      | None =>
          match h !! a with
          | Some obj =>
              let a' := fresh (dom h) in
              let '(r, h') := deepcopy l' (<[a:=a']> memo) (<[a':=obj]> h) in
              (a' :: r, h')
          | None => let '(r, h') := deepcopy l' memo h in (a :: r, h')
          end
      end
  end.

(** ** execution.py: class InstanceExecution *)

Module InstanceExecution.

(** The attributes of an execution.  [history] and [metrics] do not
    exist until [record_results] has run.  [model_name] is read by
    [fit] but no method of the class assigns it: it exists only if
    somebody outside sets it. *)
Record t := {
  ts : Z;
  idx : pyval;
  meta_data : gmap string pyval;
  num_epochs : Z;
  num_gpu : Z;
  display_model : option string;
  display_info : bool;
  save_models : bool;
  model : Model.t;
  instance_info : InstanceInfo;
  key_metrics : list (string * string);
  keras_function : string;
  history : option (gmap string (list Qc));
  metrics : option (gmap string MinMax);
  model_name : option string;
}.

Definition set_ts (v : Z) (s : t) : t :=
  {| ts := v; idx := idx s; meta_data := meta_data s;
     num_epochs := num_epochs s; num_gpu := num_gpu s;
     display_model := display_model s; display_info := display_info s;
     save_models := save_models s; model := model s;
     instance_info := instance_info s; key_metrics := key_metrics s;
     keras_function := keras_function s; history := history s;
     metrics := metrics s; model_name := model_name s |}.

Definition set_num_epochs (v : Z) (s : t) : t :=
  {| ts := ts s; idx := idx s; meta_data := meta_data s;
     num_epochs := v; num_gpu := num_gpu s;
     display_model := display_model s; display_info := display_info s;
     save_models := save_models s; model := model s;
     instance_info := instance_info s; key_metrics := key_metrics s;
     keras_function := keras_function s; history := history s;
     metrics := metrics s; model_name := model_name s |}.

Definition set_history (v : gmap string (list Qc)) (s : t) : t :=
  {| ts := ts s; idx := idx s; meta_data := meta_data s;
     num_epochs := num_epochs s; num_gpu := num_gpu s;
     display_model := display_model s; display_info := display_info s;
     save_models := save_models s; model := model s;
     instance_info := instance_info s; key_metrics := key_metrics s;
     keras_function := keras_function s; history := Some v;
     metrics := metrics s; model_name := model_name s |}.

Definition set_metrics (v : gmap string MinMax) (s : t) : t :=
  {| ts := ts s; idx := idx s; meta_data := meta_data s;
     num_epochs := num_epochs s; num_gpu := num_gpu s;
     display_model := display_model s; display_info := display_info s;
     save_models := save_models s; model := model s;
     instance_info := instance_info s; key_metrics := key_metrics s;
     keras_function := keras_function s; history := history s;
     metrics := Some v; model_name := model_name s |}.

Section methods.
Context `{Backend}.

(** Methods run on the receiver and the world. *)
Definition self : M (t * World) t := gets fst.
Definition update (f : t → t) : M (t * World) unit :=
  modify (λ '(s, w), (f s, w)).
Definition emit (e : Event) : M (t * World) unit :=
  modify (λ '(s, w), (s, log e w)).

(** [int(time.time())] *)
Definition now : M (t * World) Z :=
  λ '(s, w), (Ok (time_time (clock_reads w)), (s, tick w)).

Definition shows (selector : string) (dm : option string) (di : bool) : bool :=
  (bool_decide (dm = Some selector) || bool_decide (dm = Some "both")) && di.

Definition __init__ (model0 : Model.t) (idx0 : pyval)
    (meta_data0 : gmap string pyval) (num_gpu0 : Z)
    (display_model0 : option string) (display_info0 : bool)
    (instance_info0 : InstanceInfo) (key_metrics0 : list (string * string))
    (keras_function0 : string) (save_models0 : bool) (w : World) : t * World :=
  let ts0 := time_time (clock_reads w) in
  let w := tick w in
  let meta := <["execution" := PInt ts0]> meta_data0 in
  (* keep a separated model per instance *)
  let clone := clone_model w model0 in
  let w := log (EvCloneModel model0) w in
  let own := Model.compile clone (Model.optimizer model0) (Model.loss model0)
               (Model.metrics model0) (Model.loss_weights model0) in
  let w := if shows "base" display_model0 display_info0
           then log (EvSummary own) w else w in
  let w :=
    if decide (num_gpu0 > 1) then
      (* the wrapper is bound to a local name and then dropped *)
      let w := log (EvMultiGpu own num_gpu0) w in
      if shows "multi-gpu" display_model0 display_info0
      then log (EvSummary own) w else w
    else w in
  ({| ts := ts0; idx := idx0; meta_data := meta; num_epochs := -1;
      num_gpu := num_gpu0; display_model := display_model0;
      display_info := display_info0; save_models := save_models0;
      model := own; instance_info := instance_info0;
      key_metrics := key_metrics0; keras_function := keras_function0;
      history := None; metrics := None; model_name := None |}, w).

(** [TunerCallback(..)]: a new object in the store. *)
Definition new_callback (c : Callback) : M (t * World) addr :=
  λ '(s, w), let a := fresh (dom (store w)) in
             (Ok a, (s, set_store (<[a:=c]> (store w)) w)).

(** [copy.deepcopy(callbacks)] *)
Definition deepcopy_callbacks (l : list addr) : M (t * World) (list addr) :=
  λ '(s, w), let '(l', h') := deepcopy l ∅ (store w) in
             (Ok l', (s, set_store h' w)).

(** The body of the loop that patches the TensorBoard log directory. *)
Definition patch_log_dir (callback : addr) : M (t * World) unit :=
  λ '(s, w),
    match store w !! callback with
    | None => (Ok (), (s, w))
    | Some obj =>
        if contains "TensorBoard" (type_str obj) then
          match model_name s with
          | None => (Raise (AttributeError "InstanceExecution" "model_name"), (s, w))
          | Some name =>
              let tensorboard_idx := dash3 name (py_str (idx s)) (pretty (ts s)) in
              match obj with
              | KerasCallback ty (Some log_dir) =>
                  let patched :=
                    KerasCallback ty (Some (path_join log_dir tensorboard_idx)) in
                  (Ok (), (s, set_store (<[callback:=patched]> (store w)) w))
              | _ => (Raise (AttributeError (type_str obj) "log_dir"), (s, w))
              end
          end
        else (Ok (), (s, w))
    end.

(** [self.model.fit(..)] or [self.model.fit_generator(..)] *)
Definition call_train (c : TrainCall) : M (t * World) History :=
  λ '(s, w), (train w c, (s, log (EvTrain c) w)).

Definition fit (x : pydata) (y : ndarray) (kwargs : Kwargs)
    : M (t * World) History :=
  s ← self;
  tcb ← new_callback (TunerCallback (instance_info s) (key_metrics s) (meta_data s));
  callbacks ←
    match kw_callbacks kwargs with
    | Some (c :: cs) =>
        callbacks ← deepcopy_callbacks (c :: cs);
        for_each callbacks patch_log_dir;;
        mret (callbacks ++ [tcb])
    | _ => mret [tcb]
    end;
  let kwargs := set_kw_callbacks callbacks kwargs in
  if decide (keras_function s = "fit") then
    call_train (ModelFit (model s) x y kwargs)
  else if decide (keras_function s = "generator") then
    call_train (ModelFitGenerator (model s) x kwargs)
  else
    (* [Exception(..)] is built and dropped, there is no [raise];
       [return results] then reads a local that was never bound *)
    let dropped := Exception ["Unknown keras function requested "; keras_function s] in
    raise (UnboundLocalError "results").

(** One round of [for metric, data in self.history.items()] *)
Definition record_metric (item : string * list Qc) : M (t * World) unit :=
  mn ← lift (py_min item.2);
  mx ← lift (py_max item.2);
  update (λ s, set_metrics
                 (<[item.1 := {| mm_min := mn; mm_max := mx |}]> (default ∅ (metrics s))) s).

Definition record_results (results : History) : M (t * World) unit :=
  update (set_history (History_history results));;
  update (set_num_epochs (Z.of_nat (size (History_history results))));;
  t0 ← now;
  update (set_ts t0);;
  (* generic metric recording *)
  update (set_metrics ∅);;
  for_each (map_to_list (History_history results)) record_metric;;
  (* save model if needed *)
  s ← self;
  if save_models s then
    project ← lift (getitem (meta_data s) "project");
    architecture ← lift (getitem (meta_data s) "architecture");
    instance ← lift (getitem (meta_data s) "instance");
    execution ← lift (getitem (meta_data s) "execution");
    let prefix := dash4 (py_str project) (py_str architecture)
                    (py_str instance) (py_str execution) in
    let config_fname := prefix +:+ "-config.json" in
    local_dir ← lift (getitem (meta_data s) "local_dir" ≫= as_str);
    let local_path := path_join local_dir config_fname in
    emit (EvWrite local_path (ConfigJson (to_json (model s))));;
    emit (EvCloudSave local_path "config" (meta_data s));;
    let weights_fname := prefix +:+ "-weights.h5" in
    let local_path := path_join local_dir weights_fname in
    emit (EvSaveWeights (model s) local_path);;
    emit (EvCloudSave local_path "weights" (meta_data s))
  else mret ().

End methods.
End InstanceExecution.

(** ** instance.py: class Instance *)

(** [d[metric][direction].append(v)] on a
    [defaultdict(lambda: defaultdict(list))] *)
Definition dd_append (metric direction : string) (v : Qc)
    (d : gmap string (gmap string (list Qc))) : gmap string (gmap string (list Qc)) :=
  let inner := default ∅ (d !! metric) in
  <[metric := <[direction := default [] (inner !! direction) ++ [v]]> inner]> d.

(** The four NumPy reductions of the aggregate, in source order. *)
Definition np_stats (data : list Qc) : result Stats :=
  mn ← np_min data;
  mx ← np_max data;
  Ok {| st_min := mn; st_max := mx;
        st_mean := np_mean data; st_median := np_median data |}.

Module Instance.

(** The attributes of an instance.  An execution in [executions] is
    referred to by its position in the list. *)
Record t := {
  ts : Z;
  training_size : Z;
  model : Model.t;
  hyper_parameters : gmap string pyval;
  meta_data : gmap string pyval;
  save_models : bool;
  idx : pyval;
  num_gpu : Z;
  batch_size : Z;
  display_model : option string;
  executions : list InstanceExecution.t;
  model_size : Z;
  validation_size : Z;
  results : option Report;
  key_metrics : list (string * string);
  keras_function : string;
}.

Definition set_training_size (v : Z) (s : t) : t :=
  {| ts := ts s; training_size := v; model := model s;
     hyper_parameters := hyper_parameters s; meta_data := meta_data s;
     save_models := save_models s; idx := idx s; num_gpu := num_gpu s;
     batch_size := batch_size s; display_model := display_model s;
     executions := executions s; model_size := model_size s;
     validation_size := validation_size s; results := results s;
     key_metrics := key_metrics s; keras_function := keras_function s |}.

Definition set_validation_size (v : Z) (s : t) : t :=
  {| ts := ts s; training_size := training_size s; model := model s;
     hyper_parameters := hyper_parameters s; meta_data := meta_data s;
     save_models := save_models s; idx := idx s; num_gpu := num_gpu s;
     batch_size := batch_size s; display_model := display_model s;
     executions := executions s; model_size := model_size s;
     validation_size := v; results := results s;
     key_metrics := key_metrics s; keras_function := keras_function s |}.

Definition set_executions (v : list InstanceExecution.t) (s : t) : t :=
  {| ts := ts s; training_size := training_size s; model := model s;
     hyper_parameters := hyper_parameters s; meta_data := meta_data s;
     save_models := save_models s; idx := idx s; num_gpu := num_gpu s;
     batch_size := batch_size s; display_model := display_model s;
     executions := v; model_size := model_size s;
     validation_size := validation_size s; results := results s;
     key_metrics := key_metrics s; keras_function := keras_function s |}.

Definition set_results (v : Report) (s : t) : t :=
  {| ts := ts s; training_size := training_size s; model := model s;
     hyper_parameters := hyper_parameters s; meta_data := meta_data s;
     save_models := save_models s; idx := idx s; num_gpu := num_gpu s;
     batch_size := batch_size s; display_model := display_model s;
     executions := executions s; model_size := model_size s;
     validation_size := validation_size s; results := Some v;
     key_metrics := key_metrics s; keras_function := keras_function s |}.

Section methods.
Context `{Backend}.

Definition self : M (t * World) t := gets fst.
Definition update (f : t → t) : M (t * World) unit :=
  modify (λ '(s, w), (f s, w)).
Definition emit (e : Event) : M (t * World) unit :=
  modify (λ '(s, w), (s, log e w)).

(** Run a method of the execution at position [i]; what it does to
    the object is seen through the list. *)
Definition on_execution {A} (i : nat) (m : M (InstanceExecution.t * World) A)
    : M (t * World) A :=
  λ '(s, w),
    match executions s !! i with
    | Some e =>
        let '(r, (e', w')) := m (e, w) in
        (r, (set_executions (<[i:=e']> (executions s)) s, w'))
    | None => (Raise (IndexError "list index out of range"), (s, w))
    end.

(** comput the size of a given model *)
Definition __compute_model_size (model0 : Model.t) : Z :=
  np_sum (count_params <$>
            elements (list_to_set (Model.trainable_weights model0) : gset weight)).

Definition __init__ (idx0 : pyval) (model0 : Model.t)
    (hyper_parameters0 meta_data0 : gmap string pyval) (num_gpu0 batch_size0 : Z)
    (display_model0 : option string) (key_metrics0 : list (string * string))
    (keras_function0 : string) (save_models0 : bool) (w : World) : t * World :=
  let w := tick w in
  let ts0 := time_time (clock_reads w) in
  let w := tick w in
  ({| ts := ts0; training_size := -1; model := model0;
      hyper_parameters := hyper_parameters0;
      meta_data := <["instance" := idx0]> meta_data0;
      save_models := save_models0; idx := idx0; num_gpu := num_gpu0;
      batch_size := batch_size0; display_model := display_model0;
      executions := []; model_size := __compute_model_size model0;
      validation_size := 0; results := None; key_metrics := key_metrics0;
      keras_function := keras_function0 |}, w).

(** Return a dictionary of the model parameters *)
Definition __get_instance_info (s : t) : InstanceInfo :=
  {| info_key_metrics := ∅; info_ts := ts s;
     info_training_size := training_size s;
     info_validation_size := validation_size s;
     info_num_executions := length (executions s);
     info_model := to_json (model s);
     info_batch_size := batch_size s;
     info_model_size := model_size s;
     info_hyper_parameters := hyper_parameters s |}.

(** Appends a new execution and returns its position. *)
Definition __new_execution : M (t * World) nat :=
  λ '(s, w),
    let num_executions := length (executions s) in
    (* ensure that info is only displayed once per iteration *)
    let '(display_model0, display_info0) :=
      if decide (0 < num_executions)%nat then (None, false)
      else (display_model s, true) in
    let instance_info := __get_instance_info s in
    let '(execution, w') :=
      InstanceExecution.__init__ (model s) (idx s) (meta_data s) (num_gpu s)
        display_model0 display_info0 instance_info (key_metrics s)
        (keras_function s) (save_models s) w in
    (Ok num_executions, (set_executions (executions s ++ [execution]) s, w')).

Definition fit (x : pydata) (y : ndarray) (resume_execution : bool)
    (kwargs : Kwargs) : M (t * World) History :=
  update (set_training_size (Z.of_nat (length y)));;
  match kw_validation_data kwargs with
  | Some validation_data =>
      update (set_validation_size (Z.of_nat (length validation_data.2)))
  | None => mret ()
  end;;
  s ← self;
  '(execution, results) ←
    (if resume_execution && negb (bool_decide (length (executions s) = 0%nat)) then
       let execution := (length (executions s) - 1)%nat in
       (* FIXME: merge accuracy back *)
       e ← on_execution execution InstanceExecution.self;
       kwargs' ← lift (with_initial_epoch (InstanceExecution.num_epochs e) kwargs);
       results ← on_execution execution (InstanceExecution.fit x y kwargs');
       mret (execution, results)
     else
       execution ← __new_execution;
       results ← on_execution execution (InstanceExecution.fit x y kwargs);
       mret (execution, results));
  (* compute execution level metrics *)
  on_execution execution (InstanceExecution.record_results results);;
  mret results.

(** One execution's share of [exec_metrics] *)
Definition collect_metrics (ms : gmap string MinMax)
    (exec_metrics : gmap string (gmap string (list Qc)))
    : gmap string (gmap string (list Qc)) :=
  map_fold (λ metric data acc,
              dd_append metric "max" (mm_max data)
                (dd_append metric "min" (mm_min data) acc))
    exec_metrics ms.

(** [for execution in self.executions: ..] *)
Fixpoint collect_executions (l : list InstanceExecution.t)
    (exec_metrics : gmap string (gmap string (list Qc)))
    (infos : list ExecutionInfo)
    : result (gmap string (gmap string (list Qc)) * list ExecutionInfo) :=
  match l with
  | [] => Ok (exec_metrics, infos)
  | execution :: l' =>
      execution_id ← getitem (InstanceExecution.meta_data execution) "execution";
      (* metrics collection *)
      ms ← match InstanceExecution.metrics execution with
           | Some ms => Ok ms
           | None => Raise (AttributeError "InstanceExecution" "metrics")
           end;
      let exec_metrics := collect_metrics ms exec_metrics in
      (* execution data *)
      h ← match InstanceExecution.history execution with
          | Some h => Ok h
          | None => Raise (AttributeError "InstanceExecution" "history")
          end;
      let execution_info :=
        {| ei_num_epochs := InstanceExecution.num_epochs execution;
           ei_history := h;
           ei_loss_fn := Model.loss (InstanceExecution.model execution);
           ei_loss_weigths := Model.loss_weights (InstanceExecution.model execution);
           ei_meta_data := InstanceExecution.meta_data execution |} in
      collect_executions l' exec_metrics (infos ++ [execution_info])
  end.

(** aggregating statistics: [metrics[metric][direction] = {..}] *)
Definition aggregate (exec_metrics : gmap string (gmap string (list Qc)))
    : result (gmap string (gmap string Stats)) :=
  map_fold (λ metric directions acc,
              map_fold (λ direction data acc,
                          metrics ← acc;
                          st ← np_stats data;
                          Ok (<[metric := <[direction := st]>
                                            (default ∅ (metrics !! metric))]> metrics))
                acc directions)
    (Ok ∅) exec_metrics.

(** Usual metrics reported as top fields for their median values *)
Fixpoint report_key_metrics (tms : list (string * string))
    (metrics : gmap string (gmap string Stats)) (km : gmap string Qc)
    : result (gmap string Qc) :=
  match tms with
  | [] => Ok km
  | tm :: tms' =>
      match metrics !! tm.1 with
      | Some directions =>
          st ← getitem directions tm.2;
          report_key_metrics tms' metrics (<[tm.1 := st_median st]> km)
      | None => report_key_metrics tms' metrics km
      end
  end.

Definition record_results : M (t * World) Report :=
  s ← self;
  let results0 := __get_instance_info s in
  local_dir ← lift (getitem (meta_data s) "local_dir");
  (* collecting executions results *)
  '(exec_metrics, executions0) ← lift (collect_executions (executions s) ∅ []);
  (* aggregating statistics *)
  metrics ← lift (aggregate exec_metrics);
  km ← lift (report_key_metrics (key_metrics s) metrics (info_key_metrics results0));
  let results1 :=
    {| rp_info := set_info_key_metrics km results0;
       rp_executions := executions0;
       rp_meta_data := meta_data s;
       rp_metrics := metrics |} in
  project ← lift (getitem (meta_data s) "project");
  architecture ← lift (getitem (meta_data s) "architecture");
  instance ← lift (getitem (meta_data s) "instance");
  let fname := dash3 (py_str project) (py_str architecture) (py_str instance)
               +:+ "-results.json" in
  local_dir ← lift (as_str local_dir);
  let local_path := path_join local_dir fname in
  emit (EvWrite local_path (ResultsJson results1));;
  (* be sure to pass instance data *)
  emit (EvCloudSave local_path "results" (meta_data s));;
  update (set_results results1);;
  mret results1.

End methods.
End Instance.

(** * The vocabulary of the statements *)

(** An exception that can only come from a missing attribute. *)
Definition ok_or_attribute_error {A} (r : result A) : Prop :=
  match r with
  | Ok _ => True
  | Raise e => ∃ obj attr, e = AttributeError obj attr
  end.

Section execution_vocabulary.
Context `{Backend}.
Import InstanceExecution.

(** The part of [fit] that runs before the dispatch on
  [keras_function]: it yields the callback list handed to Keras. *)
Definition instrument (kwargs : Kwargs) : M (t * World) (list addr) :=
s ← self;
tcb ← new_callback (TunerCallback (instance_info s) (key_metrics s) (meta_data s));
match kw_callbacks kwargs with
| Some (c :: cs) =>
    callbacks ← deepcopy_callbacks (c :: cs);
    for_each callbacks patch_log_dir;;
    mret (callbacks ++ [tcb])
| _ => mret [tcb]
end.

Definition dispatch (x : pydata) (y : ndarray) (kwargs : Kwargs) (s : t)
  : M (t * World) History :=
if decide (keras_function s = "fit") then
  call_train (ModelFit (model s) x y kwargs)
else if decide (keras_function s = "generator") then
  call_train (ModelFitGenerator (model s) x kwargs)
else raise (UnboundLocalError "results").

(** The summary of one non-empty value sequence. *)
Definition min_max (data : list Qc) : MinMax :=
{| mm_min := foldl qmin (hd 0%Qc data) (tl data);
   mm_max := foldl qmax (hd 0%Qc data) (tl data) |}.

(** The block under [if self.save_models:] *)
Definition save_block (s : t) : M (t * World) unit :=
project ← lift (getitem (meta_data s) "project");
architecture ← lift (getitem (meta_data s) "architecture");
instance ← lift (getitem (meta_data s) "instance");
execution ← lift (getitem (meta_data s) "execution");
let prefix := dash4 (py_str project) (py_str architecture)
                (py_str instance) (py_str execution) in
let config_fname := prefix +:+ "-config.json" in
local_dir ← lift (getitem (meta_data s) "local_dir" ≫= as_str);
let local_path := path_join local_dir config_fname in
emit (EvWrite local_path (ConfigJson (to_json (model s))));;
emit (EvCloudSave local_path "config" (meta_data s));;
let weights_fname := prefix +:+ "-weights.h5" in
let local_path := path_join local_dir weights_fname in
emit (EvSaveWeights (model s) local_path);;
emit (EvCloudSave local_path "weights" (meta_data s)).

(** The receiver when the metric loop starts. *)
Definition recording (results : History) (s : t) (w : World) : t :=
set_metrics ∅
  (set_ts (time_time (clock_reads w))
     (set_num_epochs (Z.of_nat (size (History_history results)))
        (set_history (History_history results) s))).

End execution_vocabulary.

Section instance_vocabulary.
Context `{Backend}.
Import Instance.


(** The receiver once [training_size] and [validation_size] are set. *)
Definition record_sizes (y : ndarray) (kwargs : Kwargs) (s : t) : t :=
match kw_validation_data kwargs with
| Some validation_data =>
    set_validation_size (Z.of_nat (length validation_data.2))
      (set_training_size (Z.of_nat (length y)) s)
| None => set_training_size (Z.of_nat (length y)) s
end.

(** What [Instance.fit] asks of the execution it has chosen. *)
Definition run_execution (x : pydata) (y : ndarray) (kwargs : Kwargs)
  : M (InstanceExecution.t * World) History :=
results ← InstanceExecution.fit x y kwargs;
InstanceExecution.record_results results;;
mret results.



(** The sequence, across the executions in order, of each execution's
  own minimum (with [mm_min]) or maximum (with [mm_max]) of a metric;
  an execution that did not record the metric contributes nothing. *)
Definition per_execution (proj : MinMax → Qc) (metric : string)
  (l : list InstanceExecution.t) : list Qc :=
omap (λ e, ms ← InstanceExecution.metrics e; proj <$> ms !! metric) l.

Definition both_directions (mins maxs : list Qc) : gmap string (list Qc) :=
<["max" := maxs]> (<["min" := mins]> ∅).

(** The entry of [exec_metrics] for a metric after the executions [l]. *)
Definition collected (l : list InstanceExecution.t) (metric : string)
  : option (gmap string (list Qc)) :=
match per_execution mm_min metric l with
| [] => None
| _ => Some (both_directions (per_execution mm_min metric l)
               (per_execution mm_max metric l))
end.

(** The four statistics of a non-empty sequence. *)
Definition stats_of (data : list Qc) : Stats :=
{| st_min := foldl qmin (hd 0%Qc data) (tl data);
   st_max := foldl qmax (hd 0%Qc data) (tl data);
   st_mean := np_mean data; st_median := np_median data |}.

Definition stats_map (directions : gmap string (list Qc)) : gmap string Stats :=
stats_of <$> directions.






(** An execution whose results have been recorded. *)
Definition recorded (e : InstanceExecution.t) : Prop :=
is_Some (InstanceExecution.meta_data e !! "execution") ∧
is_Some (InstanceExecution.metrics e) ∧
is_Some (InstanceExecution.history e).

Definition execution_info (e : InstanceExecution.t) : ExecutionInfo :=
{| ei_num_epochs := InstanceExecution.num_epochs e;
   ei_history := default ∅ (InstanceExecution.history e);
   ei_loss_fn := Model.loss (InstanceExecution.model e);
   ei_loss_weigths := Model.loss_weights (InstanceExecution.model e);
   ei_meta_data := InstanceExecution.meta_data e |}.

(** The metadata keys that name the results file. *)
Definition names_results_file (md : gmap string pyval) : Prop :=
(∃ local_dir, md !! "local_dir" = Some (PStr local_dir)) ∧
is_Some (md !! "project") ∧ is_Some (md !! "architecture") ∧
is_Some (md !! "instance").

(** The report assembled from the three intermediate results. *)
Definition assemble (s : t) (infos : list ExecutionInfo)
  (agg : gmap string (gmap string Stats)) (km : gmap string Qc) : Report :=
{| rp_info := set_info_key_metrics km (__get_instance_info s);
   rp_executions := infos;
   rp_meta_data := meta_data s;
   rp_metrics := agg |}.

End instance_vocabulary.

(** ** A concrete run *)

(** Two histories of three epochs each. *)
Definition first_history : History :=
  {| History_history :=
       {["acc" := [Q2Qc (1 # 2); Q2Qc (3 # 5); Q2Qc (9 # 10)]]} |}.

Definition second_history : History :=
  {| History_history :=
       {["acc" := [Q2Qc (19 # 20); Q2Qc (7 # 10); Q2Qc (4 # 5)]]} |}.

(** A backend whose first training call returns [first_history] and
    whose later ones return [second_history]. *)
Definition demo_backend : Backend :=
  {| time_time := λ n, 1700000000 + Z.of_nat n;
     clone_model := λ _ m, m;
     to_json := λ _, "{}";
     count_params := λ p, Z.pos p;
     train := λ w _,
       Ok (if existsb is_train (trace w) then second_history else first_history) |}.

(** A model in which the weight object 2 occurs twice. *)
Definition demo_model : Model.t :=
  {| Model.model_id := 1; Model.trainable_weights := [2; 3; 2]%positive;
     Model.optimizer := "adam"; Model.loss := "mse"; Model.metrics := ["acc"];
     Model.loss_weights := None |}.

Definition demo_meta_data : gmap string pyval :=
  <["project" := PStr "demo"]>
    (<["architecture" := PStr "mlp"]> (<["local_dir" := PStr "/tmp/results"]> ∅)).

(** A world in which the caller owns one TensorBoard callback. *)
Definition demo_world : World :=
  {| clock_reads := 0;
     store := {[1%positive :=
                  KerasCallback "<class 'keras.callbacks.TensorBoard'>" (Some "logs")]};
     trace := [] |}.

Definition no_kwargs : Kwargs :=
  {| kw_callbacks := None; kw_validation_data := None;
     kw_initial_epoch := None; kw_others := ∅ |}.

Definition tensorboard_kwargs : Kwargs :=
  {| kw_callbacks := Some [1%positive]; kw_validation_data := None;
     kw_initial_epoch := None; kw_others := ∅ |}.


Definition demo_x : pydata := Array [1%Qc; 2%Qc].
Definition demo_y : ndarray := [0%Qc; 1%Qc].

(** A freshly constructed execution with the given [keras_function]. *)
Definition demo_execution (keras_function0 : string) : InstanceExecution.t * World :=
  @InstanceExecution.__init__ demo_backend demo_model (PInt 7) demo_meta_data 1
    (Some "base") true
    {| info_key_metrics := ∅; info_ts := 0; info_training_size := -1;
       info_validation_size := 0; info_num_executions := 0; info_model := "{}";
       info_batch_size := 32; info_model_size := 5; info_hyper_parameters := ∅ |}
    [("acc", "min")] keras_function0 false demo_world.

(** The same execution after somebody outside the class has given it a
    [model_name]. *)
Definition named_execution : InstanceExecution.t * World :=
  let s := (demo_execution "fit").1 in
  ({| InstanceExecution.ts := InstanceExecution.ts s;
      InstanceExecution.idx := InstanceExecution.idx s;
      InstanceExecution.meta_data := InstanceExecution.meta_data s;
      InstanceExecution.num_epochs := InstanceExecution.num_epochs s;
      InstanceExecution.num_gpu := InstanceExecution.num_gpu s;
      InstanceExecution.display_model := InstanceExecution.display_model s;
      InstanceExecution.display_info := InstanceExecution.display_info s;
      InstanceExecution.save_models := InstanceExecution.save_models s;
      InstanceExecution.model := InstanceExecution.model s;
      InstanceExecution.instance_info := InstanceExecution.instance_info s;
      InstanceExecution.key_metrics := InstanceExecution.key_metrics s;
      InstanceExecution.keras_function := InstanceExecution.keras_function s;
      InstanceExecution.history := InstanceExecution.history s;
      InstanceExecution.metrics := InstanceExecution.metrics s;
      InstanceExecution.model_name := Some "mlp" |},
   (demo_execution "fit").2).

(** A freshly constructed instance, and the same after one and two fits. *)
Definition demo_instance : Instance.t * World :=
  @Instance.__init__ demo_backend (PInt 7) demo_model ∅ demo_meta_data 1 32
    (Some "base") [("acc", "min")] "fit" false demo_world.

Definition demo_instance_1 : Instance.t * World :=
  (@Instance.fit demo_backend demo_x demo_y false no_kwargs demo_instance).2.

Definition demo_instance_2 : Instance.t * World :=
  (@Instance.fit demo_backend demo_x demo_y false no_kwargs demo_instance_1).2.
(** ** What a call leaves in the world *)

Definition is_summary (e : Event) : bool :=
  match e with EvSummary _ => true | _ => false end.

(** An event of the file system or of the uploader. *)
Definition is_file_event (e : Event) : bool :=
  match e with
  | EvWrite _ _ | EvSaveWeights _ _ | EvCloudSave _ _ _ => true
  | _ => false
  end.

(** The model a training call is made on. *)
Definition call_model (c : TrainCall) : Model.t :=
  match c with
  | ModelFit m _ _ _ => m
  | ModelFitGenerator m _ _ => m
  end.

(** The world after [ticks] more readings of the clock, with the store
    [h] and the events [evs] added to the trace. *)
Definition advance (ticks : nat) (h : gmap addr Callback) (evs : list Event)
    (w : World) : World :=
  {| clock_reads := ticks + clock_reads w; store := h; trace := trace w ++ evs |}.

(** A result that is an exception. *)
Definition is_raise_of {A} (r : result A) : Prop :=
  match r with Raise _ => True | Ok _ => False end.

(** A callback object whose type does not mention TensorBoard. *)
Definition plain_callback (h : gmap addr Callback) (a : addr) : Prop :=
  ∃ obj, h !! a = Some obj ∧ contains "TensorBoard" (type_str obj) = false.

(** The metadata keys read when the model is saved, in the order read. *)
Definition save_keys : list string :=
  ["project"; "architecture"; "instance"; "execution"; "local_dir"].

(** Two states of an execution with the same configuration. *)
Definition same_configuration (e e' : InstanceExecution.t) : Prop :=
  InstanceExecution.meta_data e' = InstanceExecution.meta_data e ∧
  InstanceExecution.idx e' = InstanceExecution.idx e ∧
  InstanceExecution.model e' = InstanceExecution.model e ∧
  InstanceExecution.keras_function e' = InstanceExecution.keras_function e ∧
  InstanceExecution.save_models e' = InstanceExecution.save_models e.

(** An execution on which nothing has been recorded. *)
Definition unrecorded (e : InstanceExecution.t) : Prop :=
  InstanceExecution.metrics e = None ∧
  InstanceExecution.history e = None ∧
  InstanceExecution.num_epochs e = -1.

(** ** More of the concrete run *)

(** A world in which the caller owns one early-stopping callback. *)
Section report_vocabulary.
Context `{Backend}.
Import Instance.

(** What [Instance.record_results] computes before it writes anything:
    the report and the path of the results file, or the exception that
    stops it. *)
Definition build_report (s : t) : result (Report * string) :=
local_dir ← getitem (meta_data s) "local_dir";
'(exec_metrics, executions0) ← collect_executions (executions s) ∅ [];
metrics ← aggregate exec_metrics;
km ← report_key_metrics (key_metrics s) metrics ∅;
project ← getitem (meta_data s) "project";
architecture ← getitem (meta_data s) "architecture";
instance ← getitem (meta_data s) "instance";
local_dir ← as_str local_dir;
Ok (assemble s executions0 metrics km,
    path_join local_dir
      (dash3 (py_str project) (py_str architecture) (py_str instance)
       +:+ "-results.json")).


(** The execution that a non-resuming [Instance.fit] constructs, and the
    world after its construction. *)
Definition new_execution (y : ndarray) (kwargs : Kwargs) (s : t) (w : World)
  : InstanceExecution.t * World :=
InstanceExecution.__init__ (model s) (idx s) (meta_data s) (num_gpu s)
  (if decide (0 < length (executions s))%nat then None else display_model s)
  (if decide (0 < length (executions s))%nat then false else true)
  (__get_instance_info (record_sizes y kwargs s)) (key_metrics s)
  (keras_function s) (save_models s) w.


End report_vocabulary.

(** Collaborators whose training always fails. *)
Definition failing_backend : Backend :=
  {| time_time := λ n, 1700000000 + Z.of_nat n;
     clone_model := λ _ m, m;
     to_json := λ _, "{}";
     count_params := λ p, Z.pos p;
     train := λ _ _, Raise (FrameworkError "ResourceExhaustedError") |}.

Definition plain_world : World :=
  {| clock_reads := 0;
     store := {[1%positive :=
                  KerasCallback "<class 'keras.callbacks.EarlyStopping'>" None]};
     trace := [] |}.

Definition plain_kwargs : Kwargs :=
  {| kw_callbacks := Some [1%positive]; kw_validation_data := None;
     kw_initial_epoch := None; kw_others := ∅ |}.

Definition demo_info : InstanceInfo :=
  {| info_key_metrics := ∅; info_ts := 0; info_training_size := -1;
     info_validation_size := 0; info_num_executions := 0; info_model := "{}";
     info_batch_size := 32; info_model_size := 5; info_hyper_parameters := ∅ |}.

(** An execution that saves its model, built on the given metadata. *)
Definition saving_execution (md : gmap string pyval) : InstanceExecution.t * World :=
  @InstanceExecution.__init__ demo_backend demo_model (PInt 7) md 1 None false
    demo_info [("acc", "min")] "fit" true demo_world.


Definition incomplete_saving_execution : InstanceExecution.t * World :=
  saving_execution demo_meta_data.

(** A history in which a metric has no value. *)
Definition empty_history : History :=
  {| History_history := {["acc" := []]} |}.

(** Collaborators whose training succeeds once and fails afterwards. *)
Definition flaky_backend : Backend :=
  {| time_time := λ n, 1700000000 + Z.of_nat n;
     clone_model := λ _ m, m;
     to_json := λ _, "{}";
     count_params := λ p, Z.pos p;
     train := λ w _,
       if existsb is_train (trace w)
       then Raise (FrameworkError "ResourceExhaustedError")
       else Ok first_history |}.

(** The instance after a first fit whose training failed. *)
Definition failed_instance : Instance.t * World :=
  (@Instance.fit failing_backend demo_x demo_y false no_kwargs demo_instance).2.

(** An instance holding one execution on which nothing was recorded. *)
Definition unrecorded_instance : Instance.t * World :=
  (Instance.set_executions [(demo_execution "fit").1] demo_instance.1, demo_instance.2).

(** An instance, after one fit, whose second key metric has a direction
    other than min and max. *)
Definition misdirected_instance : Instance.t * World :=
  (@Instance.fit demo_backend demo_x demo_y false no_kwargs
     (@Instance.__init__ demo_backend (PInt 7) demo_model ∅ demo_meta_data 1 32
        None [("acc", "min"); ("acc", "maximize")] "fit" false demo_world)).2.


(** * Properties *)

(** ** Running the monad *)

Lemma bind_run {S A B} (m : M S A) (f : A → M S B) (st : S) :
  (m ≫= f) st = match m st with
                | (Ok a, st') => f a st'
                | (Raise e, st') => (Raise e, st')
                end.
Proof. reflexivity. Qed.

Lemma ret_run {S A} (a : A) (st : S) : (mret a : M S A) st = (Ok a, st).
Proof. reflexivity. Qed.

Lemma lift_run {S A} (r : result A) (st : S) : lift r st = (r, st).
Proof. reflexivity. Qed.

Lemma for_each_cons {S A} (a : A) (l : list A) (body : A → M S unit) (st : S) :
  for_each (a :: l) body st =
    match body a st with
    | (Ok _, st') => for_each l body st'
    | (Raise e, st') => (Raise e, st')
    end.
Proof. reflexivity. Qed.

(** ** The reductions *)















(** ** InstanceExecution.fit: the callback set-up *)

Section execution_fit.
Context `{Backend}.
Import InstanceExecution.

Lemma execution_fit_run x y kwargs s w :
  fit x y kwargs (s, w) =
    match instrument kwargs (s, w) with
    | (Ok callbacks, st) => dispatch x y (set_kw_callbacks callbacks kwargs) s st
    | (Raise e, st) => (Raise e, st)
    end.
Proof.
  unfold fit, instrument, dispatch. rewrite !bind_run. simpl.
  rewrite !bind_run.
  destruct (kw_callbacks kwargs) as [[|c cs]|]; reflexivity.
Qed.

(** Patching touches the store only, and only at the callback given. *)
Lemma patch_log_dir_run a s w :
  ∃ r h,
    patch_log_dir a (s, w) = (r, (s, set_store h w)) ∧
    ok_or_attribute_error r ∧
    (∀ b, b ≠ a → h !! b = store w !! b).
Proof.
  unfold patch_log_dir.
  destruct (store w !! a) as [obj|] eqn:Ha.
  - destruct (contains "TensorBoard" (type_str obj)).
    + destruct (model_name s) as [name|].
      * destruct obj as [ty [ld|]|info km md].
        -- eexists _, _. split; [reflexivity|]. split; [exact I|].
           intros b Hb. by rewrite lookup_insert_ne.
        -- exists (Raise (AttributeError (type_str (KerasCallback ty None)) "log_dir")),
             (store w).
           destruct w; simpl. split; [reflexivity|]. split; [by eexists _, _|done].
        -- exists (Raise (AttributeError (type_str (TunerCallback info km md)) "log_dir")),
             (store w).
           destruct w; simpl. split; [reflexivity|]. split; [by eexists _, _|done].
      * exists (Raise (AttributeError "InstanceExecution" "model_name")), (store w).
        destruct w; simpl. split; [reflexivity|]. split; [by eexists _, _|done].
    + exists (Ok ()), (store w). destruct w; simpl. done.
  - exists (Ok ()), (store w). destruct w; simpl. done.
Qed.

Lemma patch_loop_run l s w :
  ∃ r h,
    for_each l patch_log_dir (s, w) = (r, (s, set_store h w)) ∧
    ok_or_attribute_error r ∧
    (∀ b, b ∉ l → h !! b = store w !! b).
Proof.
  revert w. induction l as [|a l IH]; intros w.
  - exists (Ok ()), (store w). destruct w; simpl. done.
  - rewrite for_each_cons.
    destruct (patch_log_dir_run a s w) as (r & h & -> & Hr & Hh).
    destruct r as [[]|e].
    + destruct (IH (set_store h w)) as (r' & h' & -> & Hr' & Hh').
      exists r', h'. split; [reflexivity|]. split; [done|].
      intros b Hb. apply not_elem_of_cons in Hb as [Hba Hbl].
      rewrite (Hh' b Hbl). simpl. by apply Hh.
    + exists (Raise e), h. split; [reflexivity|]. split; [done|].
      intros b Hb. apply not_elem_of_cons in Hb as [Hba Hbl]. by apply Hh.
Qed.

(** Deep copy only adds cells, and every reference it returns is
    outside a store [h0] that the memo never pointed into. *)
Lemma deepcopy_fresh (h0 : gmap addr Callback) l :
  ∀ memo h l' h',
    h0 ⊆ h →
    (∀ a a', memo !! a = Some a' → a' ∉ dom h0) →
    deepcopy l memo h = (l', h') →
    h0 ⊆ h' ∧ ∀ a', a' ∈ l' → a' ∉ dom h0.
Proof.
  induction l as [|a l IH]; intros memo h l' h' Hsub Hmemo; simpl.
  - intros [= <- <-]. split; [done|]. set_solver.
  - destruct (memo !! a) as [a'|] eqn:Hm.
    + destruct (deepcopy l memo h) as [r h1] eqn:E. intros [= <- <-].
      destruct (IH _ _ _ _ Hsub Hmemo E) as [? Hr]. split; [done|].
      intros b [->|Hb]%elem_of_cons; eauto.
    + destruct (h !! a) as [obj|] eqn:Hh.
      * destruct (deepcopy l _ _) as [r h1] eqn:E. intros [= <- <-].
        assert (Hf : fresh (dom h) ∉ dom h) by apply is_fresh.
        assert (Hf0 : fresh (dom h) ∉ dom h0).
        { intros Hin. apply Hf. by apply (subseteq_dom h0 h). }
        apply IH in E as [? Hr].
        -- split; [done|]. intros b [->|Hb]%elem_of_cons; eauto.
        -- etrans; [exact Hsub|]. apply insert_subseteq. by apply not_elem_of_dom.
        -- intros b b'. rewrite lookup_insert. case_decide; [|by eauto].
           by intros [= <-].
      * destruct (deepcopy l memo h) as [r h1] eqn:E. intros [= <- <-].
        destruct (IH _ _ _ _ Hsub Hmemo E) as [? Hr]. split; [done|].
        intros b [->|Hb]%elem_of_cons; eauto.
        intros Hin. apply not_elem_of_dom in Hh. apply Hh.
        by apply (subseteq_dom h0 h).
Qed.

#[local] Arguments deepcopy : simpl never.

(** The set-up leaves the receiver, the clock and the trace as they
    were, raises at most an [AttributeError], and never writes to a
    callback object that existed before the call. *)
Lemma instrument_run kwargs s w :
  ∃ r h,
    instrument kwargs (s, w) = (r, (s, set_store h w)) ∧
    ok_or_attribute_error r ∧
    store w ⊆ h.
Proof.
  pose (tcb := fresh (dom (store w))).
  pose (h1 := <[tcb:=TunerCallback (instance_info s) (key_metrics s) (meta_data s)]>
                (store w)).
  assert (Hsub1 : store w ⊆ h1).
  { apply insert_subseteq, not_elem_of_dom, is_fresh. }
  unfold instrument.
  destruct (kw_callbacks kwargs) as [[|c cs]|];
    [by exists (Ok [tcb]), h1| |by exists (Ok [tcb]), h1].
  rewrite !bind_run.
  change (self (s, w)) with (Ok s, (s, w)). cbv beta iota.
  rewrite bind_run.
  change (new_callback _ (s, w)) with (Ok tcb, (s, set_store h1 w)). cbv beta iota.
  rewrite bind_run. unfold deepcopy_callbacks.
  change (store (set_store h1 w)) with h1.
  destruct (deepcopy (c :: cs) ∅ h1) as [l' h2] eqn:E.
  destruct (deepcopy_fresh (store w) (c :: cs) ∅ h1 l' h2) as [Hsub2 Hl']; try done.
  rewrite bind_run.
  destruct (patch_loop_run l' s (set_store h2 (set_store h1 w)))
    as (r & h3 & -> & Hr & Hh3).
  assert (Hsub3 : store w ⊆ h3).
  { apply map_subseteq_spec. intros a obj Ha.
    rewrite Hh3.
    - simpl. by eapply lookup_weaken.
    - intros Hin. apply (Hl' a Hin). apply elem_of_dom. eauto. }
  destruct r as [[]|e].
  - by exists (Ok (l' ++ [tcb])), h3.
  - by exists (Raise e), h3.
Qed.

(** A copied object has the content of its original. *)
Lemma deepcopy_content l :
  ∀ memo (h : gmap addr Callback) l' h',
    (∀ a a', memo !! a = Some a' → ∃ obj, h !! a = Some obj ∧ h !! a' = Some obj) →
    deepcopy l memo h = (l', h') →
    h ⊆ h' ∧
    ∀ a obj, a ∈ l → h !! a = Some obj → ∃ a', a' ∈ l' ∧ h' !! a' = Some obj.
Proof.
  induction l as [|a l IH]; intros memo h l' h' Hmemo; unfold deepcopy; fold deepcopy.
  - intros [= <- <-]. split; [done|]. intros a obj Ha. by apply elem_of_nil in Ha.
  - destruct (memo !! a) as [a'|] eqn:Hm.
    + destruct (deepcopy l memo h) as [r h1] eqn:E. intros [= <- <-].
      destruct (IH _ _ _ _ Hmemo E) as [Hsub Hr]. split; [done|].
      intros b obj [->|Hb]%elem_of_cons Hobj.
      * destruct (Hmemo _ _ Hm) as (obj' & Ha & Ha').
        exists a'. split; [left|]. eapply lookup_weaken; [|exact Hsub]. congruence.
      * destruct (Hr _ _ Hb Hobj) as (b' & ? & ?). exists b'. split; [by right|done].
    + destruct (h !! a) as [obj0|] eqn:Hh.
      * destruct (deepcopy l _ _) as [r h1] eqn:E. intros [= <- <-].
        assert (Hf : h !! fresh (dom h) = None) by apply not_elem_of_dom, is_fresh.
        assert (Hsub0 : h ⊆ <[fresh (dom h):=obj0]> h) by by apply insert_subseteq.
        apply IH in E as [Hsub Hr].
        -- split; [by etrans|].
           intros b obj [->|Hb]%elem_of_cons Hobj.
           ++ exists (fresh (dom h)). split; [left|].
              eapply lookup_weaken; [|exact Hsub].
              rewrite lookup_insert_eq. congruence.
           ++ destruct (Hr b obj Hb) as (b' & ? & ?).
              { by eapply lookup_weaken. }
              exists b'. split; [by right|done].
        -- intros b b'. rewrite lookup_insert. case_decide as Hab.
           ++ intros [= <-]. subst b. exists obj0.
              split; [by eapply lookup_weaken|by rewrite lookup_insert_eq].
           ++ intros Hb. destruct (Hmemo _ _ Hb) as (obj' & ? & ?).
              exists obj'. split; by eapply lookup_weaken.
      * destruct (deepcopy l memo h) as [r h1] eqn:E. intros [= <- <-].
        destruct (IH _ _ _ _ Hmemo E) as [Hsub Hr]. split; [done|].
        intros b obj [->|Hb]%elem_of_cons Hobj; [congruence|].
        destruct (Hr _ _ Hb Hobj) as (b' & ? & ?). exists b'. split; [by right|done].
Qed.

(** Without a [model_name] the patch loop stops at the first callback
    whose type mentions TensorBoard, and writes nothing. *)
Lemma patch_loop_without_model_name l s w a obj :
  model_name s = None →
  a ∈ l →
  store w !! a = Some obj →
  contains "TensorBoard" (type_str obj) = true →
  for_each l patch_log_dir (s, w)
    = (Raise (AttributeError "InstanceExecution" "model_name"), (s, w)).
Proof.
  intros Hname Ha Hobj Htb. induction l as [|b l IH]; [by apply elem_of_nil in Ha|].
  rewrite for_each_cons. unfold patch_log_dir at 1.
  destruct (store w !! b) as [obj'|] eqn:Hb.
  - destruct (contains "TensorBoard" (type_str obj')) eqn:Htb'.
    + by rewrite Hname.
    + apply elem_of_cons in Ha as [->|Ha]; [congruence|]. by apply IH.
  - apply elem_of_cons in Ha as [->|Ha]; [congruence|]. by apply IH.
Qed.

Lemma dispatch_unknown x y kwargs s st :
  keras_function s ≠ "fit" →
  keras_function s ≠ "generator" →
  dispatch x y kwargs s st = (Raise (UnboundLocalError "results"), st).
Proof. intros. unfold dispatch. by rewrite !decide_False. Qed.

(** X1.  Whatever [fit] does, the callback objects the caller passed in
    are afterwards what they were before: only copies are patched. *)
Lemma fit_keeps_caller_callbacks x y kwargs s w a obj :
  store w !! a = Some obj →
  store (fit x y kwargs (s, w)).2.2 !! a = Some obj.
Proof.
  intros Ha. rewrite execution_fit_run.
  destruct (instrument_run kwargs s w) as (r & h & -> & _ & Hsub).
  assert (Hh : h !! a = Some obj) by by eapply lookup_weaken.
  destruct r as [callbacks|e]; [|done].
  unfold dispatch. repeat case_decide; done.
Qed.

(** C1.  With a [keras_function] other than 'fit' and 'generator', [fit]
    does end in an exception and never reaches a training entry point,
    but the exception is not the configuration error: the
    [Exception("Unknown keras function requested ", ..)] object is built
    without [raise], and what surfaces is the [UnboundLocalError] of
    [return results] (or, earlier, an [AttributeError] from the callback
    patching). *)
Theorem fit_unknown_function_unbound_local x y kwargs s w :
  keras_function s ≠ "fit" →
  keras_function s ≠ "generator" →
  ∃ e w',
    fit x y kwargs (s, w) = (Raise e, (s, w')) ∧
    (e = UnboundLocalError "results" ∨ ∃ obj attr, e = AttributeError obj attr) ∧
    (∀ args, e ≠ Exception args) ∧
    trace w' = trace w.
Proof.
  intros Hfit Hgen. rewrite execution_fit_run.
  destruct (instrument_run kwargs s w) as (r & h & -> & Hr & _).
  destruct r as [callbacks|e].
  - rewrite dispatch_unknown by done.
    exists (UnboundLocalError "results"), (set_store h w).
    split; [done|]. split; [by left|]. done.
  - destruct Hr as (obj & attr & ->).
    exists (AttributeError obj attr), (set_store h w).
    split; [done|]. split; [right; by eexists _, _|]. done.
Qed.

(** C9.  In 'generator' mode the outcome of [fit] (the result or the
    exception, the receiver, and the world with the recorded training
    call and its arguments) is the same for any two values of [y]. *)
Theorem fit_generator_ignores_y x y1 y2 kwargs s w :
  keras_function s = "generator" →
  fit x y1 kwargs (s, w) = fit x y2 kwargs (s, w).
Proof.
  intros Hgen. rewrite !execution_fit_run.
  destruct (instrument kwargs (s, w)) as [[callbacks|e] st]; [|done].
  unfold dispatch. rewrite Hgen. by rewrite decide_False, decide_True.
Qed.

(** In 'generator' mode the call that reaches Keras is [fit_generator]
    and carries no [y] at all. *)
Lemma fit_generator_call x y kwargs s w callbacks st :
  keras_function s = "generator" →
  instrument kwargs (s, w) = (Ok callbacks, st) →
  fit x y kwargs (s, w)
    = call_train (ModelFitGenerator (model s) x (set_kw_callbacks callbacks kwargs)) st.
Proof.
  intros Hgen Hi. rewrite execution_fit_run, Hi. unfold dispatch. rewrite Hgen.
  by rewrite decide_False, decide_True.
Qed.

(** Every execution leaves the constructor without a [model_name]. *)
Lemma init_model_name m i md g dm di info km kf sm w :
  model_name (__init__ m i md g dm di info km kf sm w).1 = None.
Proof. reflexivity. Qed.

(** C8.  An execution has no [model_name] attribute (the constructor
    never sets one), so as soon as the caller's list holds a callback
    whose type mentions TensorBoard, [fit] stops with an
    [AttributeError] while building the suffix: no log directory is
    rewritten and training is not dispatched. *)
Theorem fit_tensorboard_attribute_error x y kwargs s w callbacks a obj :
  model_name s = None →
  kw_callbacks kwargs = Some callbacks →
  a ∈ callbacks →
  store w !! a = Some obj →
  contains "TensorBoard" (type_str obj) = true →
  ∃ w',
    fit x y kwargs (s, w)
      = (Raise (AttributeError "InstanceExecution" "model_name"), (s, w')) ∧
    trace w' = trace w.
Proof.
  intros Hname Hkw Ha Hobj Htb. rewrite execution_fit_run. unfold instrument.
  rewrite Hkw. destruct callbacks as [|c cs]; [by apply elem_of_nil in Ha|].
  rewrite !bind_run.
  change (self (s, w)) with (Ok s, (s, w)). cbv beta iota.
  rewrite bind_run.
  pose (tcb := fresh (dom (store w))).
  pose (h1 := <[tcb:=TunerCallback (instance_info s) (key_metrics s) (meta_data s)]>
                (store w)).
  change (new_callback _ (s, w)) with (Ok tcb, (s, set_store h1 w)). cbv beta iota.
  rewrite bind_run. unfold deepcopy_callbacks.
  change (store (set_store h1 w)) with h1.
  destruct (deepcopy (c :: cs) ∅ h1) as [l' h2] eqn:E.
  assert (Hh1 : h1 !! a = Some obj).
  { eapply lookup_weaken; [exact Hobj|].
    apply insert_subseteq, not_elem_of_dom, is_fresh. }
  destruct (deepcopy_content (c :: cs) ∅ h1 l' h2) as [_ Hl']; [done|done|].
  destruct (Hl' a obj Ha Hh1) as (a' & Ha' & Hobj').
  rewrite bind_run.
  rewrite (patch_loop_without_model_name l' s _ a' obj); try done.
  by eexists.
Qed.

End execution_fit.

(** ** InstanceExecution.record_results *)

Section execution_record_results.
Context `{Backend}.
Import InstanceExecution.

Lemma execution_record_results_run results s w :
  record_results results (s, w) =
    match for_each (map_to_list (History_history results)) record_metric
            (recording results s w, tick w) with
    | (Ok _, (s', w')) =>
        if save_models s' then save_block s' (s', w') else (Ok (), (s', w'))
    | (Raise e, st) => (Raise e, st)
    end.
Proof.
  unfold record_results. repeat (rewrite bind_run; simpl).
  change (for_each ?l ?b ?st) with (for_each l b (recording results s w, tick w)).
  destruct (for_each _ _ (_, _)) as [[[]|e] [s' w']]; [|done].
  repeat (rewrite bind_run; simpl). by destruct (save_models s').
Qed.

Lemma update_run (f : t → t) s w : update f (s, w) = (Ok (), (f s, w)).
Proof. reflexivity. Qed.

Lemma emit_run e s w : emit e (s, w) = (Ok (), (s, log e w)).
Proof. reflexivity. Qed.

(** Saving the files does not touch the receiver. *)
Lemma save_block_self s0 s w : (save_block s0 (s, w)).2.1 = s.
Proof.
  unfold save_block.
  do 4 (rewrite bind_run, lift_run;
        destruct (getitem (meta_data s0) _) as [?|?]; [|done]; cbv beta iota).
  rewrite bind_run, lift_run.
  destruct (_ ≫= as_str) as [?|?]; [|done]. cbv beta iota zeta.
  by repeat (rewrite bind_run, emit_run; cbv beta iota).
Qed.

(** One round of the loop, on a non-empty sequence. *)
Lemma record_metric_run metric data s w :
  data ≠ [] →
  record_metric (metric, data) (s, w)
    = (Ok (), (set_metrics (<[metric := min_max data]> (default ∅ (metrics s))) s, w)).
Proof. destruct data as [|d ds]; [done|]. reflexivity. Qed.

(** The loop changes the [metrics] attribute and nothing else. *)
Lemma record_loop_frame l s w :
  ∃ r s',
    for_each l record_metric (s, w) = (r, (s', w)) ∧
    num_epochs s' = num_epochs s ∧ history s' = history s ∧ ts s' = ts s ∧
    save_models s' = save_models s.
Proof.
  revert s. induction l as [|[metric data] l IH]; intros s.
  - by exists (Ok ()), s.
  - rewrite for_each_cons. destruct data as [|d ds].
    + by eexists (Raise _), s.
    + rewrite record_metric_run by done.
      destruct (IH (set_metrics (<[metric := min_max (d :: ds)]> (default ∅ (metrics s))) s))
        as (r & s' & -> & ? & ? & ? & ?).
      by exists r, s'.
Qed.

(** The loop over items with distinct keys and non-empty sequences
    succeeds; afterwards every key of the items maps to the summary of
    its sequence and the other keys are as before. *)
Lemma record_loop_run l s w acc :
  metrics s = Some acc →
  NoDup l.*1 →
  Forall (λ item : string * list Qc, item.2 ≠ []) l →
  ∃ ms,
    for_each l record_metric (s, w) = (Ok (), (set_metrics ms s, w)) ∧
    ∀ key, ms !! key =
             match (list_to_map l : gmap string (list Qc)) !! key with
             | Some data => Some (min_max data)
             | None => acc !! key
             end.
Proof.
  revert s acc. induction l as [|[metric data] l IH]; intros s acc Hms Hnd Hne.
  - exists acc. split; [|done].
    destruct s; simpl in *; by subst.
  - simpl in Hnd. pose proof (NoDup_cons_1_1 _ _ Hnd) as Hnotin.
    apply NoDup_cons_1_2 in Hnd.
    pose proof (Forall_inv Hne) as Hdata. apply Forall_inv_tail in Hne.
    rewrite for_each_cons, record_metric_run by done. rewrite Hms. simpl in *.
    destruct (IH (set_metrics (<[metric := min_max data]> acc) s)
                (<[metric := min_max data]> acc)) as (ms & Hrun & Hlook); try done.
    exists ms. split; [exact Hrun|].
    intros key. rewrite Hlook. destruct (decide (key = metric)) as [->|Hkey].
    + rewrite lookup_insert_eq.
      rewrite (not_elem_of_list_to_map_1 l metric) by done.
      by rewrite lookup_insert_eq.
    + by rewrite !lookup_insert_ne.
Qed.

(** [num_epochs] is set to the number of entries of the history
    mapping, that is, to the number of metric names. *)
Lemma record_results_num_epochs results s w :
  num_epochs (record_results results (s, w)).2.1
    = Z.of_nat (size (History_history results)).
Proof.
  rewrite execution_record_results_run.
  destruct (record_loop_frame (map_to_list (History_history results))
              (recording results s w) (tick w)) as (r & s' & -> & Hn & _).
  destruct r as [[]|e]; [|exact Hn].
  destruct (save_models s'); [|exact Hn].
  by rewrite save_block_self.
Qed.

(** Before any recording, [num_epochs] is -1. *)
Lemma init_num_epochs m i md g dm di info km kf sm w :
  num_epochs (__init__ m i md g dm di info km kf sm w).1 = -1.
Proof. reflexivity. Qed.

(** C2.  A history with the single metric 'loss' makes [num_epochs]
    equal to 1, however many epochs its value sequence records:
    [len(self.history)] counts the metric names, not the epochs. *)
Theorem record_results_num_epochs_single_metric (data : list Qc) s w :
  num_epochs (record_results {| History_history := {["loss" := data]} |} (s, w)).2.1 = 1.
Proof. rewrite record_results_num_epochs. simpl. by rewrite map_size_singleton. Qed.


End execution_record_results.

(** ** Instance: the model size *)

Section instance_model_size.
Context `{Backend}.
Import Instance.














End instance_model_size.

(** ** Instance.fit *)

Section instance_fit.
Context `{Backend}.
Import Instance.

Lemma lookup_last {A} (l : list A) (x : A) : (l ++ [x]) !! length l = Some x.
Proof. by rewrite lookup_app_r, Nat.sub_diag. Qed.

Lemma insert_last {A} (l : list A) (x x' : A) :
  <[length l := x']> (l ++ [x]) = l ++ [x'].
Proof. by rewrite insert_app_r_alt, Nat.sub_diag. Qed.

Lemma on_execution_run {A} i (m : M (InstanceExecution.t * World) A) s w e :
  executions s !! i = Some e →
  on_execution i m (s, w) =
    let '(r, (e', w')) := m (e, w) in
    (r, (set_executions (<[i:=e']> (executions s)) s, w')).
Proof. intros He. unfold on_execution. by rewrite He. Qed.

(** The first two statements of [fit]. *)
Lemma instance_fit_run x y resume_execution kwargs s w :
  fit x y resume_execution kwargs (s, w) =
    let s1 := record_sizes y kwargs s in
    match
      (if resume_execution && negb (bool_decide (length (executions s) = 0%nat)) then
         let execution := (length (executions s) - 1)%nat in
         e ← on_execution execution InstanceExecution.self;
         kwargs' ← lift (with_initial_epoch (InstanceExecution.num_epochs e) kwargs);
         results ← on_execution execution (InstanceExecution.fit x y kwargs');
         mret (execution, results)
       else
         execution ← __new_execution;
         results ← on_execution execution (InstanceExecution.fit x y kwargs);
         mret (execution, results)) (s1, w)
    with
    | (Ok (execution, results), st) =>
        match on_execution execution (InstanceExecution.record_results results) st with
        | (Ok _, st') => (Ok results, st')
        | (Raise e, st') => (Raise e, st')
        end
    | (Raise e, st) => (Raise e, st)
    end.
Proof.
  unfold fit, record_sizes. rewrite bind_run. simpl.
  destruct (kw_validation_data kwargs) as [vd|]; rewrite bind_run; simpl;
    rewrite bind_run; simpl; rewrite bind_run;
    match goal with |- context [?m (?s1, w)] =>
      destruct (m (s1, w)) as [[[i r]|e] st] end;
    try done; rewrite bind_run;
    by destruct (on_execution _ _ _) as [[[]|?] ?].
Qed.

(** When nothing is resumed, [fit] builds a new execution from the
    instance, appends it, and trains it with the caller's own keyword
    arguments. *)
Lemma fit_new_execution x y resume_execution kwargs s w :
  resume_execution && negb (bool_decide (length (executions s) = 0%nat)) = false →
  fit x y resume_execution kwargs (s, w) =
    let s1 := record_sizes y kwargs s in
    let '(e0, w0) :=
      InstanceExecution.__init__ (model s) (idx s) (meta_data s) (num_gpu s)
        (if decide (0 < length (executions s))%nat then None else display_model s)
        (if decide (0 < length (executions s))%nat then false else true)
        (__get_instance_info s1) (key_metrics s) (keras_function s)
        (save_models s) w in
    let '(r, (e1, w1)) := run_execution x y kwargs (e0, w0) in
    (r, (set_executions (executions s ++ [e1]) s1, w1)).
Proof.
  intros Hcond. rewrite instance_fit_run, Hcond. cbv zeta.
  rewrite bind_run. unfold __new_execution.
  set (s1 := record_sizes y kwargs s).
  assert (Hs1 : ∃ ts vs, s1 = set_validation_size vs (set_training_size ts s)).
  { unfold s1, record_sizes. destruct (kw_validation_data kwargs).
    - by eexists _, _.
    - exists (Z.of_nat (length y)), (validation_size s). by destruct s. }
  destruct Hs1 as (ts & vs & Hs1).
  assert (Hfields : executions s1 = executions s ∧ model s1 = model s ∧
            idx s1 = idx s ∧ meta_data s1 = meta_data s ∧ num_gpu s1 = num_gpu s ∧
            display_model s1 = display_model s ∧ key_metrics s1 = key_metrics s ∧
            keras_function s1 = keras_function s ∧ save_models s1 = save_models s)
    by by rewrite Hs1.
  destruct Hfields as (-> & -> & -> & -> & -> & -> & -> & -> & ->).
  clear Hs1. generalize (__get_instance_info s1). intros info.
  destruct (decide (0 < length (executions s))%nat);
    destruct (InstanceExecution.__init__ _ _ _ _ _ _ _ _ _ _ _) as [e0 w0];
    cbv beta iota zeta; rewrite bind_run.
  all: (rewrite (on_execution_run _ _ _ _ e0);
          [|cbn [set_executions executions]; by rewrite lookup_last]);
    unfold run_execution; rewrite bind_run;
    destruct (InstanceExecution.fit x y kwargs (e0, w0)) as [[r|e] [e1 w1]];
    cbn [set_executions executions]; rewrite insert_last; try done;
    rewrite ret_run; cbv beta iota zeta;
    (rewrite (on_execution_run _ _ _ _ e1);
       [|cbn [set_executions executions]; by rewrite lookup_last]);
    rewrite bind_run;
    destruct (InstanceExecution.record_results r (e1, w1)) as [[[]|e] [e2 w2]];
    cbn [set_executions executions]; by rewrite insert_last.
Qed.

(** When the last execution is resumed, it is trained with
    [initial_epoch] added to the caller's keyword arguments, unless the
    caller gave that keyword too: then the call itself is rejected. *)
Lemma fit_resume x y kwargs s w pre e :
  executions s = pre ++ [e] →
  fit x y true kwargs (s, w) =
    let s1 := record_sizes y kwargs s in
    match with_initial_epoch (InstanceExecution.num_epochs e) kwargs with
    | Ok kwargs' =>
        let '(r, (e', w')) := run_execution x y kwargs' (e, w) in
        (r, (set_executions (pre ++ [e']) s1, w'))
    | Raise ex => (Raise ex, (set_executions (pre ++ [e]) s1, w))
    end.
Proof.
  intros Hex. rewrite instance_fit_run. cbv zeta.
  set (s1 := record_sizes y kwargs s).
  assert (Hex1 : executions s1 = pre ++ [e]).
  { unfold s1, record_sizes. by destruct (kw_validation_data kwargs). }
  assert (Hlen : length (executions s) = S (length pre)).
  { rewrite Hex, length_app. simpl. lia. }
  rewrite Hlen, bool_decide_eq_false_2 by lia.
  replace (S (length pre) - 1)%nat with (length pre) by lia.
  change (true && negb false) with true. cbv iota.
  rewrite bind_run.
  rewrite (on_execution_run _ _ _ _ e) by by rewrite Hex1, lookup_last.
  change (InstanceExecution.self (e, w)) with (Ok e, (e, w)). cbv beta iota.
  rewrite Hex1, insert_last. rewrite bind_run, lift_run.
  destruct (with_initial_epoch _ kwargs) as [kwargs'|ex]; [|done].
  cbv beta iota. rewrite bind_run.
  (rewrite (on_execution_run _ _ _ _ e);
     [|cbn [set_executions executions]; by rewrite lookup_last]).
  unfold run_execution. rewrite bind_run.
  destruct (InstanceExecution.fit x y kwargs' (e, w)) as [[r|ex] [e1 w1]];
    cbn [set_executions executions]; rewrite insert_last; [|done].
  rewrite ret_run. cbv beta iota zeta.
  (rewrite (on_execution_run _ _ _ _ e1);
     [|cbn [set_executions executions]; by rewrite lookup_last]).
  rewrite bind_run.
  destruct (InstanceExecution.record_results r (e1, w1)) as [[[]|ex] [e2 w2]];
    cbn [set_executions executions]; by rewrite insert_last.
Qed.

(** A resuming [fit] on an instance that has executions never adds
    one, whatever happens next. *)
Lemma fit_resume_creates_no_execution x y kwargs s w :
  executions s ≠ [] →
  length (executions (fit x y true kwargs (s, w)).2.1) = length (executions s).
Proof.
  intros Hne.
  destruct (executions s) as [|e0 l] eqn:Hex using rev_ind; [done|]. clear IHl.
  rewrite (fit_resume x y kwargs s w l e0) by done. cbv zeta.
  destruct (with_initial_epoch _ kwargs) as [kwargs'|ex].
  - destruct (run_execution x y kwargs' (e0, w)) as [r [e1 w1]]. simpl.
    by rewrite !length_app.
  - done.
Qed.


(** C10.  With no execution to resume, a resuming [fit] is the very
    computation of a non-resuming one: the instance builds its first
    execution (display allowed), appends it, and runs [fit] and
    [record_results] on it with the caller's keyword arguments as they
    are, [initial_epoch] included or not. *)
Theorem fit_resume_without_executions x y kwargs s w :
  executions s = [] →
  fit x y true kwargs (s, w) = fit x y false kwargs (s, w) ∧
  fit x y true kwargs (s, w) =
    let s1 := record_sizes y kwargs s in
    let '(e0, w0) :=
      InstanceExecution.__init__ (model s) (idx s) (meta_data s) (num_gpu s)
        (display_model s) true (__get_instance_info s1) (key_metrics s)
        (keras_function s) (save_models s) w in
    let '(r, (e1, w1)) := run_execution x y kwargs (e0, w0) in
    (r, (set_executions [e1] s1, w1)).
Proof.
  intros Hex.
  assert (Hcond : ∀ b, b && negb (bool_decide (length (executions s) = 0%nat)) = false).
  { intros b. rewrite Hex. by destruct b. }
  rewrite !fit_new_execution by done. split; [done|].
  by rewrite Hex.
Qed.

End instance_fit.

(** ** Instance.record_results *)

Section instance_record_results.
Context `{Backend}.
Import Instance.

Lemma per_execution_length metric l :
  length (per_execution mm_min metric l) = length (per_execution mm_max metric l).
Proof.
  induction l as [|e l IH]; [done|]. unfold per_execution in *. simpl.
  destruct (InstanceExecution.metrics e) as [ms|]; simpl; [|exact IH].
  destruct (ms !! metric); simpl; [f_equal|]; exact IH.
Qed.

Lemma per_execution_snoc proj metric l e :
  per_execution proj metric (l ++ [e]) =
    per_execution proj metric l ++
      match InstanceExecution.metrics e ≫= (.!! metric) with
      | Some r => [proj r]
      | None => []
      end.
Proof.
  unfold per_execution. rewrite omap_app. f_equal. simpl.
  destruct (InstanceExecution.metrics e) as [ms|]; simpl; [|done].
  by destruct (ms !! metric).
Qed.

Lemma collect_metrics_lookup ms em metric :
  collect_metrics ms em !! metric =
    match ms !! metric with
    | Some r =>
        let inner := default ∅ (em !! metric) in
        let inner' := <["min" := default [] (inner !! "min") ++ [mm_min r]]> inner in
        Some (<["max" := default [] (inner' !! "max") ++ [mm_max r]]> inner')
    | None => em !! metric
    end.
Proof.
  unfold collect_metrics. revert metric.
  apply (map_fold_weak_ind (λ acc (m : gmap string MinMax), ∀ metric,
           acc !! metric =
             match m !! metric with
             | Some r =>
                 let inner := default ∅ (em !! metric) in
                 let inner' :=
                   <["min" := default [] (inner !! "min") ++ [mm_min r]]> inner in
                 Some (<["max" := default [] (inner' !! "max") ++ [mm_max r]]> inner')
             | None => em !! metric
             end)).
  - intros metric. by rewrite lookup_empty.
  - intros i x m r Hi IH metric. unfold dd_append.
    destruct (decide (metric = i)) as [->|Hne].
    + rewrite !lookup_insert_eq. specialize (IH i). rewrite Hi in IH.
      by rewrite IH.
    + rewrite !lookup_insert_ne by done. apply IH.
Qed.

Lemma both_directions_min mins maxs : both_directions mins maxs !! "min" = Some mins.
Proof. unfold both_directions. by rewrite lookup_insert_ne, lookup_insert_eq. Qed.

Lemma both_directions_max mins maxs : both_directions mins maxs !! "max" = Some maxs.
Proof. unfold both_directions. by rewrite lookup_insert_eq. Qed.

Lemma both_directions_snoc mins maxs mn mx :
  <["max" := maxs ++ [mx]]>
    (<["min" := mins ++ [mn]]> (both_directions mins maxs))
  = both_directions (mins ++ [mn]) (maxs ++ [mx]).
Proof.
  unfold both_directions. apply map_eq. intros k.
  destruct (decide (k = "max")) as [->|Hmax]; [by rewrite !lookup_insert_eq|].
  destruct (decide (k = "min")) as [->|Hmin];
    by repeat (rewrite lookup_insert_eq || rewrite lookup_insert_ne by done).
Qed.

(** One more execution extends every collected sequence by its own
    minimum and maximum. *)
Lemma collect_metrics_collected ms em l e :
  InstanceExecution.metrics e = Some ms →
  (∀ metric, em !! metric = collected l metric) →
  ∀ metric, collect_metrics ms em !! metric = collected (l ++ [e]) metric.
Proof.
  intros Hms Hem metric. rewrite collect_metrics_lookup, Hem.
  unfold collected. rewrite !per_execution_snoc, Hms. simpl.
  pose proof (per_execution_length metric l) as Hlen.
  destruct (ms !! metric) as [r|]; simpl; [|by rewrite !app_nil_r].
  destruct (per_execution mm_min metric l) as [|q qs] eqn:Hmins.
  - destruct (per_execution mm_max metric l) as [|q' qs']; [|done].
    simpl. unfold both_directions. by rewrite lookup_empty.
  - simpl. rewrite both_directions_min. simpl.
    rewrite (lookup_insert_ne _ "min" "max"), both_directions_max by done.
    simpl. apply (f_equal Some).
    exact (both_directions_snoc (q :: qs) _ (mm_min r) (mm_max r)).
Qed.

Lemma collect_executions_run l :
  ∀ done em infos,
    Forall recorded l →
    (∀ metric, em !! metric = collected done metric) →
    ∃ em',
      collect_executions l em infos = Ok (em', infos ++ (execution_info <$> l)) ∧
      ∀ metric, em' !! metric = collected (done ++ l) metric.
Proof.
  induction l as [|e l IH]; intros done em infos Hrec Hem.
  - exists em. simpl. rewrite !app_nil_r. done.
  - pose proof (Forall_inv Hrec) as ([id Hid] & [ms Hms] & [h Hh]).
    apply Forall_inv_tail in Hrec.
    destruct (IH (done ++ [e]) (collect_metrics ms em)
                (infos ++ [execution_info e]) Hrec) as (em' & Hrun & Hem').
    { by apply collect_metrics_collected. }
    exists em'. split.
    + simpl. unfold getitem. rewrite Hid, Hms, Hh. simpl.
      unfold execution_info at 1 in Hrun. rewrite Hh in Hrun. simpl in Hrun.
      rewrite Hrun. by rewrite <- app_assoc.
    + intros metric. rewrite Hem'. by rewrite <- app_assoc.
Qed.

Lemma np_stats_nonempty data : data ≠ [] → np_stats data = Ok (stats_of data).
Proof. by destruct data. Qed.

(** Aggregation succeeds on non-empty sequences and maps every
    sequence to its statistics. *)
Lemma aggregate_run (em : gmap string (gmap string (list Qc))) :
  (∀ metric directions,
     em !! metric = Some directions →
     directions ≠ ∅ ∧ ∀ d data, directions !! d = Some data → data ≠ []) →
  aggregate em = Ok (stats_map <$> em).
Proof.
  unfold aggregate.
  apply (map_fold_weak_ind (λ acc (m : gmap string (gmap string (list Qc))),
           (∀ metric directions,
              m !! metric = Some directions →
              directions ≠ ∅ ∧ ∀ d data, directions !! d = Some data → data ≠ []) →
           acc = Ok (stats_map <$> m))).
  - intros _. by rewrite fmap_empty.
  - intros i x m r Hi IH Hwf. rewrite IH; last first.
    { intros metric directions Hm. apply (Hwf metric).
      rewrite lookup_insert_ne; [done|]. intros ->. congruence. }
    destruct (Hwf i x) as [Hx Hdata]; [by rewrite lookup_insert_eq|].
    clear IH Hwf.
    set (acc0 := stats_map <$> m).
    assert (Hacc0 : acc0 !! i = None) by (unfold acc0; by rewrite lookup_fmap, Hi).
    rewrite fmap_insert. fold acc0.
    revert Hdata Hx.
    apply (map_fold_weak_ind (λ res (directions : gmap string (list Qc)),
             (∀ d data, directions !! d = Some data → data ≠ []) →
             res = Ok (if decide (directions = ∅) then acc0
                       else <[i := stats_map directions]> acc0) ∧
             (directions ≠ ∅ → res = Ok (<[i := stats_map directions]> acc0))));
      [intros _; split; [by rewrite decide_True|done]|].
    intros j y directions r' Hj IH' Hdata.
    destruct IH' as [-> _].
    { intros d data Hd. apply (Hdata d). rewrite lookup_insert_ne; [done|].
      intros ->. congruence. }
    assert (Hins : <[j:=y]> directions ≠ ∅) by apply insert_non_empty.
    assert (Hgoal : (metrics ← Ok (if decide (directions = ∅) then acc0
                                   else <[i := stats_map directions]> acc0);
                     st ← np_stats y;
                     Ok (<[i := <[j := st]> (default ∅ (metrics !! i))]> metrics))
                    = Ok (<[i := stats_map (<[j:=y]> directions)]> acc0)).
    { rewrite (np_stats_nonempty y) by (eapply Hdata; by rewrite lookup_insert_eq).
      unfold stats_map. rewrite fmap_insert. simpl.
      destruct (decide (directions = ∅)) as [->|Hne].
      - by rewrite Hacc0, fmap_empty.
      - by rewrite lookup_insert_eq, insert_insert_eq. }
    split; [by rewrite (decide_False _ _ Hins)|done].
Qed.

Lemma report_key_metrics_ok tms (agg : gmap string (gmap string Stats)) :
  ∀ km,
    (∀ tm directions,
       tm ∈ tms → agg !! tm.1 = Some directions → is_Some (directions !! tm.2)) →
    ∃ km', report_key_metrics tms agg km = Ok km'.
Proof.
  induction tms as [|tm tms IH]; intros km Hdirs; [by exists km|].
  simpl. destruct (agg !! tm.1) as [directions|] eqn:Hagg.
  - destruct (Hdirs tm directions) as [st Hst]; [left|done|].
    unfold getitem. rewrite Hst. simpl. apply IH.
    intros tm' directions' Hin. apply Hdirs. by right.
  - apply IH. intros tm' directions' Hin. apply Hdirs. by right.
Qed.

Lemma report_key_metrics_empty tms km : report_key_metrics tms ∅ km = Ok km.
Proof. induction tms as [|tm tms IH]; [done|]. simpl. by rewrite lookup_empty. Qed.

Lemma instance_record_results_run s w em infos agg km :
  names_results_file (meta_data s) →
  collect_executions (executions s) ∅ [] = Ok (em, infos) →
  aggregate em = Ok agg →
  report_key_metrics (key_metrics s) agg ∅ = Ok km →
  ∃ w',
    record_results (s, w)
      = (Ok (assemble s infos agg km), (set_results (assemble s infos agg km) s, w')).
Proof.
  intros ([d Hd] & [p Hp] & [a Ha] & [i Hi]) Hcollect Hagg Hkm.
  unfold record_results. rewrite bind_run.
  change (self (s, w)) with (Ok s, (s, w)). cbv beta iota zeta.
  unfold getitem. rewrite Hd, Hp, Ha, Hi. cbn [info_key_metrics __get_instance_info].
  rewrite Hcollect.
  do 2 (rewrite bind_run, lift_run; cbv beta iota).
  rewrite Hagg.
  rewrite bind_run, lift_run; cbv beta iota.
  rewrite Hkm.
  repeat (rewrite bind_run, ?lift_run; cbv beta iota).
  eexists. reflexivity.
Qed.

(** C6.  With no execution at all (and metadata that names the results
    file), [record_results] returns a report: its execution details,
    its aggregate metrics and its key-metrics summary are all empty. *)
Theorem record_results_without_executions s w :
  executions s = [] →
  names_results_file (meta_data s) →
  ∃ report w',
    record_results (s, w) = (Ok report, (set_results report s, w')) ∧
    rp_executions report = [] ∧
    rp_metrics report = ∅ ∧
    info_key_metrics (rp_info report) = ∅.
Proof.
  intros Hex Hmd.
  destruct (instance_record_results_run s w ∅ [] ∅ ∅) as [w' Hrun]; try done.
  - by rewrite Hex.
  - apply report_key_metrics_empty.
  - by exists (assemble s [] ∅ ∅), w'.
Qed.




End instance_record_results.


(** ** The theorems on the concrete run *)

(** C1 on an execution built with [keras_function = "predict"]. *)
Lemma fit_unknown_function_unbound_local_witness :
  InstanceExecution.keras_function (demo_execution "predict").1 ≠ "fit" ∧
  InstanceExecution.keras_function (demo_execution "predict").1 ≠ "generator" ∧
  ∃ e w',
    @InstanceExecution.fit demo_backend demo_x demo_y no_kwargs
      ((demo_execution "predict").1, (demo_execution "predict").2)
      = (Raise e, ((demo_execution "predict").1, w')) ∧
    (e = UnboundLocalError "results" ∨ ∃ obj attr, e = AttributeError obj attr) ∧
    (∀ args, e ≠ Exception args) ∧
    trace w' = trace (demo_execution "predict").2.
Proof.
  split; [done|]. split; [done|].
  apply (@fit_unknown_function_unbound_local demo_backend); done.
Defined.

(** C9 on a generator-mode execution, with a two-item and an empty [y]. *)
Lemma fit_generator_ignores_y_witness :
  InstanceExecution.keras_function (demo_execution "generator").1 = "generator" ∧
  @InstanceExecution.fit demo_backend (Generator 9) demo_y no_kwargs
    ((demo_execution "generator").1, (demo_execution "generator").2)
  = @InstanceExecution.fit demo_backend (Generator 9) [] no_kwargs
      ((demo_execution "generator").1, (demo_execution "generator").2).
Proof.
  split; [reflexivity|].
  apply (@fit_generator_ignores_y demo_backend). reflexivity.
Defined.

(** C8 on a constructed execution and the caller's TensorBoard callback. *)
Lemma fit_tensorboard_attribute_error_witness :
  InstanceExecution.model_name (demo_execution "fit").1 = None ∧
  kw_callbacks tensorboard_kwargs = Some [1%positive] ∧
  1%positive ∈ [1%positive] ∧
  store (demo_execution "fit").2 !! 1%positive
    = Some (KerasCallback "<class 'keras.callbacks.TensorBoard'>" (Some "logs")) ∧
  contains "TensorBoard"
    (type_str (KerasCallback "<class 'keras.callbacks.TensorBoard'>" (Some "logs"))) = true ∧
  ∃ w',
    @InstanceExecution.fit demo_backend demo_x demo_y tensorboard_kwargs
      ((demo_execution "fit").1, (demo_execution "fit").2)
      = (Raise (AttributeError "InstanceExecution" "model_name"),
         ((demo_execution "fit").1, w')) ∧
    trace w' = trace (demo_execution "fit").2.
Proof.
  assert (Hin : 1%positive ∈ [1%positive]) by left.
  split; [reflexivity|]. split; [reflexivity|]. split; [exact Hin|].
  split; [reflexivity|]. split; [reflexivity|].
  apply (@fit_tensorboard_attribute_error demo_backend demo_x demo_y tensorboard_kwargs
           (demo_execution "fit").1 (demo_execution "fit").2 [1%positive] 1%positive
           (KerasCallback "<class 'keras.callbacks.TensorBoard'>" (Some "logs")));
    [reflexivity|reflexivity|exact Hin|reflexivity|reflexivity].
Defined.

Lemma first_history_nonempty key data :
  History_history first_history !! key = Some data → data ≠ [].
Proof.
  unfold first_history. simpl. intros [_ <-]%lookup_singleton_Some. discriminate.
Qed.




(** C10 on the fresh instance. *)
Lemma fit_resume_without_executions_witness :
  Instance.executions demo_instance.1 = [] ∧
  @Instance.fit demo_backend demo_x demo_y true no_kwargs
    (demo_instance.1, demo_instance.2)
  = @Instance.fit demo_backend demo_x demo_y false no_kwargs
      (demo_instance.1, demo_instance.2) ∧
  @Instance.fit demo_backend demo_x demo_y true no_kwargs
    (demo_instance.1, demo_instance.2)
  = let s1 := record_sizes demo_y no_kwargs demo_instance.1 in
    let '(e0, w0) :=
      @InstanceExecution.__init__ demo_backend
        (Instance.model demo_instance.1) (Instance.idx demo_instance.1)
        (Instance.meta_data demo_instance.1) (Instance.num_gpu demo_instance.1)
        (Instance.display_model demo_instance.1) true
        (@Instance.__get_instance_info demo_backend s1)
        (Instance.key_metrics demo_instance.1)
        (Instance.keras_function demo_instance.1)
        (Instance.save_models demo_instance.1) demo_instance.2 in
    let '(r, (e1, w1)) := @run_execution demo_backend demo_x demo_y no_kwargs (e0, w0) in
    (r, (Instance.set_executions [e1] s1, w1)).
Proof.
  split; [reflexivity|].
  apply (@fit_resume_without_executions demo_backend). reflexivity.
Defined.

Lemma demo_names_results_file (w : Instance.t * World) :
  Instance.meta_data w.1 = <["instance" := PInt 7]> demo_meta_data →
  names_results_file (Instance.meta_data w.1).
Proof.
  intros ->. split; [by exists "/tmp/results"|].
  split; [by exists (PStr "demo")|]. split; [by exists (PStr "mlp")|].
  by exists (PInt 7).
Qed.

(** C6 on the fresh instance. *)
Lemma record_results_without_executions_witness :
  Instance.executions demo_instance.1 = [] ∧
  names_results_file (Instance.meta_data demo_instance.1) ∧
  ∃ report w',
    @Instance.record_results demo_backend (demo_instance.1, demo_instance.2)
      = (Ok report, (Instance.set_results report demo_instance.1, w')) ∧
    rp_executions report = [] ∧
    rp_metrics report = ∅ ∧
    info_key_metrics (rp_info report) = ∅.
Proof.
  assert (Hmd : names_results_file (Instance.meta_data demo_instance.1))
    by (apply demo_names_results_file; reflexivity).
  split; [reflexivity|]. split; [exact Hmd|].
  apply (@record_results_without_executions demo_backend); [reflexivity|exact Hmd].
Defined.




(** The two executions of the run have minima 0.5 and 0.7 for 'acc':
    the aggregate for direction 'min' is
    [{min: 0.5, max: 0.7, mean: 0.6, median: 0.6}]. *)
Example aggregates_of_half_and_seven_tenths :
  per_execution mm_min "acc" (Instance.executions demo_instance_2.1)
    = [Q2Qc (1 # 2); Q2Qc (7 # 10)] ∧
  ∃ report st,
    (@Instance.record_results demo_backend demo_instance_2).1 = Ok report ∧
    rp_metrics report !! "acc" ≫= (.!! "min") = Some st ∧
    st_min st = Q2Qc (1 # 2) ∧ st_max st = Q2Qc (7 # 10) ∧
    st_mean st = Q2Qc (3 # 5) ∧ st_median st = Q2Qc (3 # 5).
Proof.
  split; [by vm_compute|].
  eexists _, _. split; [by vm_compute|]. split; [by vm_compute|].
  repeat split; apply Qc_is_canon; reflexivity.
Qed.

(** The same run: three epochs were recorded each time, and [num_epochs]
    is 1; the deduplicated weights 2 and 3 give the size 5. *)
Example demo_run_values :
  InstanceExecution.num_epochs <$> Instance.executions demo_instance_2.1 = [1; 1] ∧
  length <$> History_history first_history = {["acc" := 3%nat]} ∧
  Instance.model_size demo_instance.1 = 5.
Proof. by vm_compute. Qed.

(** Were [model_name] set, [fit] would patch the copy (object 3) and
    hand it to Keras before the results-recording callback (object 2),
    leaving the caller's TensorBoard callback (object 1) as it was. *)
Example fit_patches_the_copy_when_model_name_is_set :
  let after := @InstanceExecution.fit demo_backend demo_x demo_y tensorboard_kwargs
                 named_execution in
  after.1 = Ok first_history ∧
  store after.2.2 !! 1%positive
    = Some (KerasCallback "<class 'keras.callbacks.TensorBoard'>" (Some "logs")) ∧
  store after.2.2 !! 3%positive
    = Some (KerasCallback "<class 'keras.callbacks.TensorBoard'>"
              (Some "logs/mlp-7-1700000000")) ∧
  ∃ m x y kwargs,
    last (trace after.2.2) = Some (EvTrain (ModelFit m x y kwargs)) ∧
    kw_callbacks kwargs = Some [3%positive; 2%positive].
Proof.
  split; [by vm_compute|]. split; [by vm_compute|]. split; [by vm_compute|].
  eexists _, _, _, _. split; by vm_compute.
Qed.

(** [os.path.join] on the four shapes of its arguments. *)
Example path_join_values :
  path_join "logs" "a" = "logs/a" ∧ path_join "logs/" "a" = "logs/a" ∧
  path_join "" "a" = "a" ∧ path_join "logs" "/abs" = "/abs".
Proof. by vm_compute. Qed.

(** On the run: the first [fit], asked to resume with nothing to
    resume, builds one execution and trains it without [initial_epoch]. *)
Example fit_resume_on_a_fresh_instance :
  let after := @Instance.fit demo_backend demo_x demo_y true no_kwargs demo_instance in
  after.1 = Ok first_history ∧
  length (Instance.executions after.2.1) = 1%nat ∧
  ∃ m x y kwargs,
    last (trace after.2.2) = Some (EvTrain (ModelFit m x y kwargs)) ∧
    kw_initial_epoch kwargs = None.
Proof.
  split; [by vm_compute|]. split; [by vm_compute|].
  eexists _, _, _, _. split; by vm_compute.
Qed.

(** On the run: a resuming [fit] after one execution adds exactly one
    event to the trace, a training call with [initial_epoch] equal to
    that execution's [num_epochs], and the instance keeps one execution. *)
Example fit_resume_after_one_execution :
  let after := @Instance.fit demo_backend demo_x demo_y true no_kwargs demo_instance_1 in
  after.1 = Ok second_history ∧
  length (Instance.executions after.2.1) = 1%nat ∧
  InstanceExecution.num_epochs <$> Instance.executions demo_instance_1.1 = [1] ∧
  ∃ m x y kwargs,
    trace after.2.2 = trace demo_instance_1.2 ++ [EvTrain (ModelFit m x y kwargs)] ∧
    kw_initial_epoch kwargs = Some 1.
Proof.
  split; [by vm_compute|]. split; [by vm_compute|]. split; [by vm_compute|].
  eexists _, _, _, _. split; by vm_compute.
Qed.

(** * Further properties *)

(** ** InstanceExecution.fit: what it touches and what it hands over *)

Section execution_fit_effects.
Context `{Backend}.
Import InstanceExecution.

Lemma advance_nothing h w : advance 0 h [] w = set_store h w.
Proof. unfold advance, set_store. simpl. by rewrite app_nil_r. Qed.

Lemma advance_log h c w : advance 0 h [c] w = log c (set_store h w).
Proof. reflexivity. Qed.

(** [fit] leaves the receiver and the clock alone, only adds objects
    to the store, and makes at most one call to Keras, on its own model. *)
Lemma execution_fit_effect x y kwargs s w :
  ∃ r h evs,
    fit x y kwargs (s, w) = (r, (s, advance 0 h evs w)) ∧
    store w ⊆ h ∧
    (evs = [] ∧ is_raise_of r ∨
     ∃ c, evs = [EvTrain c] ∧ call_model c = model s ∧ r = train (set_store h w) c).
Proof.
  rewrite execution_fit_run.
  destruct (instrument_run kwargs s w) as (r & h & -> & Hr & Hsub).
  destruct r as [callbacks|e].
  - unfold dispatch. destruct (decide (keras_function s = "fit")).
    + eexists _, h, [_]. split; [reflexivity|]. split; [done|]. right. by eexists.
    + destruct (decide (keras_function s = "generator")).
      * eexists _, h, [_]. split; [reflexivity|]. split; [done|]. right. by eexists.
      * exists (Raise (UnboundLocalError "results")), h, [].
        rewrite advance_nothing. split; [done|]. split; [done|]. by left.
  - exists (Raise e), h, []. rewrite advance_nothing.
    split; [done|]. split; [done|]. by left.
Qed.

(** X2.  Whatever its outcome, [fit] leaves every attribute of the
    execution and the clock as they were, and adds to the trace either
    nothing (and then it raised) or one training call, made on the
    execution's own model, whose outcome is the outcome of [fit]. *)
Theorem fit_effect_is_one_training_call x y kwargs s w :
  let after := fit x y kwargs (s, w) in
  after.2.1 = s ∧
  clock_reads after.2.2 = clock_reads w ∧
  (trace after.2.2 = trace w ∧ is_raise_of after.1 ∨
   ∃ c w0,
     trace after.2.2 = trace w ++ [EvTrain c] ∧
     call_model c = model s ∧
     trace w0 = trace w ∧ store w0 = store after.2.2 ∧
     after.1 = train w0 c).
Proof.
  destruct (execution_fit_effect x y kwargs s w) as (r & h & evs & Hfit & _ & Hevs).
  cbv zeta. rewrite Hfit. simpl. split; [done|]. split; [done|].
  destruct Hevs as [[-> Hr]|(c & -> & Hc & ->)].
  - left. by rewrite app_nil_r.
  - right. by exists c, (set_store h w).
Qed.

(** A copy made by [deepcopy] holds what its original holds, position
    by position. *)
Lemma deepcopy_pointwise l :
  ∀ memo (h : gmap addr Callback) l' h',
    (∀ a a', memo !! a = Some a' → ∃ obj, h !! a = Some obj ∧ h !! a' = Some obj) →
    deepcopy l memo h = (l', h') →
    h ⊆ h' ∧
    Forall2 (λ a a', ∀ obj, h !! a = Some obj → h' !! a' = Some obj) l l'.
Proof.
  induction l as [|a l IH]; intros memo h l' h' Hmemo; unfold deepcopy; fold deepcopy.
  - intros [= <- <-]. split; [done|]. constructor.
  - destruct (memo !! a) as [a'|] eqn:Hm.
    + destruct (deepcopy l memo h) as [r h1] eqn:E. intros [= <- <-].
      destruct (IH _ _ _ _ Hmemo E) as [Hsub Hr]. split; [done|].
      constructor; [|done]. intros obj Hobj.
      destruct (Hmemo _ _ Hm) as (obj' & Ha & Ha').
      eapply lookup_weaken; [|exact Hsub]. congruence.
    + destruct (h !! a) as [obj0|] eqn:Hh.
      * destruct (deepcopy l _ _) as [r h1] eqn:E. intros [= <- <-].
        assert (Hf : h !! fresh (dom h) = None) by apply not_elem_of_dom, is_fresh.
        assert (Hsub0 : h ⊆ <[fresh (dom h):=obj0]> h) by by apply insert_subseteq.
        apply IH in E as [Hsub Hr].
        -- split; [by etrans|]. constructor.
           ++ intros obj Hobj. assert (obj = obj0) as -> by congruence.
              eapply lookup_weaken; [|exact Hsub]. by rewrite lookup_insert_eq.
           ++ eapply Forall2_impl; [exact Hr|]. intros b b' Hb obj Hobj.
              apply Hb. by eapply lookup_weaken.
        -- intros b b'. rewrite lookup_insert. case_decide as Hab.
           ++ intros [= <-]. subst b. exists obj0.
              split; [by eapply lookup_weaken|by rewrite lookup_insert_eq].
           ++ intros Hb. destruct (Hmemo _ _ Hb) as (obj' & ? & ?).
              exists obj'. split; by eapply lookup_weaken.
      * destruct (deepcopy l memo h) as [r h1] eqn:E. intros [= <- <-].
        destruct (IH _ _ _ _ Hmemo E) as [Hsub Hr]. split; [done|].
        constructor; [|done]. intros obj Hobj. congruence.
Qed.

(** The patch loop does nothing to callbacks that are not TensorBoard's. *)
Lemma patch_loop_plain l s w :
  Forall (plain_callback (store w)) l →
  for_each l patch_log_dir (s, w) = (Ok (), (s, w)).
Proof.
  induction 1 as [|a l (obj & Ha & Hplain) _ IH]; [done|].
  rewrite for_each_cons. unfold patch_log_dir at 1. by rewrite Ha, Hplain.
Qed.

Lemma copies_hold_originals (h0 h1 h2 : gmap addr Callback) l l' :
  h0 ⊆ h1 →
  Forall (plain_callback h0) l →
  Forall2 (λ a a', ∀ obj, h1 !! a = Some obj → h2 !! a' = Some obj) l l' →
  Forall2 (λ a a', plain_callback h0 a ∧ h2 !! a' = h0 !! a) l l'.
Proof.
  intros Hsub Hplain Hpt. revert Hplain.
  induction Hpt as [|a a' l l' Ha _ IH]; intros Hplain; [constructor|].
  pose proof (Forall_inv Hplain) as (obj & Hobj & Hty).
  apply Forall_inv_tail in Hplain.
  constructor; [|by apply IH]. split; [by exists obj|].
  rewrite Hobj. apply Ha. by eapply lookup_weaken.
Qed.

(** With callbacks that are not TensorBoard's the set-up succeeds: it
    yields one new object per callback, then the new [TunerCallback]. *)
Lemma instrument_plain kwargs s w :
  Forall (plain_callback (store w)) (default [] (kw_callbacks kwargs)) →
  ∃ copies tcb h,
    (instrument kwargs (s, w) = (Ok (copies ++ [tcb]), (s, set_store h w))) ∧
    Forall2 (λ a a', h !! a' = store w !! a) (default [] (kw_callbacks kwargs)) copies ∧
    Forall (λ a', a' ∉ dom (store w)) copies ∧
    (tcb ∉ dom (store w)) ∧
    h !! tcb = Some (TunerCallback (instance_info s) (key_metrics s) (meta_data s)) ∧
    store w ⊆ h.
Proof.
  intros Hplain.
  pose (tcb := fresh (dom (store w))).
  pose (h1 := <[tcb:=TunerCallback (instance_info s) (key_metrics s) (meta_data s)]>
                (store w)).
  assert (Htcb : tcb ∉ dom (store w)) by apply is_fresh.
  assert (Hsub1 : store w ⊆ h1) by by apply insert_subseteq, not_elem_of_dom.
  assert (Hh1 : h1 !! tcb = Some (TunerCallback (instance_info s) (key_metrics s)
                                    (meta_data s))) by apply lookup_insert_eq.
  unfold instrument.
  destruct (kw_callbacks kwargs) as [[|c cs]|] eqn:Hkw; simpl in Hplain.
  - exists [], tcb, h1. split; [reflexivity|]. by repeat split.
  - rewrite !bind_run.
    change (self (s, w)) with (Ok s, (s, w)). cbv beta iota.
    rewrite bind_run.
    change (new_callback _ (s, w)) with (Ok tcb, (s, set_store h1 w)). cbv beta iota.
    rewrite bind_run. unfold deepcopy_callbacks.
    change (store (set_store h1 w)) with h1.
    destruct (deepcopy (c :: cs) ∅ h1) as [l' h2] eqn:E.
    destruct (deepcopy_fresh (store w) (c :: cs) ∅ h1 l' h2) as [Hsub2 Hfresh]; try done.
    destruct (deepcopy_pointwise (c :: cs) ∅ h1 l' h2) as [Hsub12 Hpt]; try done.
    pose proof (copies_hold_originals (store w) h1 h2 (c :: cs) l' Hsub1 Hplain Hpt)
      as Hcopies.
    assert (Hplain' : Forall (plain_callback h2) l').
    { eapply Forall2_Forall_r; [exact Hcopies|].
      eapply Forall_impl; [exact Hplain|].
      intros a _ a' [(obj & Hobj & Hty) Ha']. exists obj. by rewrite Ha'. }
    rewrite bind_run.
    rewrite (patch_loop_plain l' s (set_store h2 (set_store h1 w))) by done.
    exists l', tcb, h2. split; [reflexivity|]. split.
    { eapply Forall2_impl; [exact Hcopies|]. by intros a a' [_ ?]. }
    split; [by apply Forall_forall|]. split; [done|].
    split; [by eapply lookup_weaken|done].
  - exists [], tcb, h1. split; [reflexivity|]. by repeat split.
Qed.

(** X3.  In 'fit' mode, when the caller's callbacks (if any) are stored
    objects that are not TensorBoard's, [fit] calls [model.fit] once with
    the caller's [x], [y] and keyword arguments, except that [callbacks]
    is now: one new object per callback of the caller, in the same order
    and with the same content, followed by a new [TunerCallback] holding
    the execution's [instance_info], [key_metrics] and [meta_data].  An
    absent and an empty callback list both give the [TunerCallback]
    alone.  What [model.fit] returns or raises is what [fit] returns or
    raises. *)
Theorem fit_hands_over_copies_and_tuner_callback x y kwargs s w :
  keras_function s = "fit" →
  Forall (plain_callback (store w)) (default [] (kw_callbacks kwargs)) →
  ∃ copies tcb h c,
    c = ModelFit (model s) x y (set_kw_callbacks (copies ++ [tcb]) kwargs) ∧
    (fit x y kwargs (s, w) = (train (set_store h w) c, (s, log (EvTrain c) (set_store h w)))) ∧
    Forall2 (λ a a', h !! a' = store w !! a) (default [] (kw_callbacks kwargs)) copies ∧
    Forall (λ a', a' ∉ dom (store w)) copies ∧
    (tcb ∉ dom (store w)) ∧
    h !! tcb = Some (TunerCallback (instance_info s) (key_metrics s) (meta_data s)) ∧
    store w ⊆ h.
Proof.
  intros Hfit Hplain.
  destruct (instrument_plain kwargs s w Hplain) as (copies & tcb & h & Hi & Hrest).
  exists copies, tcb, h, (ModelFit (model s) x y (set_kw_callbacks (copies ++ [tcb]) kwargs)).
  split; [done|]. split; [|done].
  rewrite execution_fit_run, Hi. unfold dispatch. by rewrite decide_True.
Qed.

End execution_fit_effects.

(** ** InstanceExecution.record_results: what it touches and what it saves *)

Section execution_record_results_effects.
Context `{Backend}.
Import InstanceExecution.

(** The metric loop changes [metrics] or nothing. *)
Lemma record_loop_outcome l s w :
  ∃ r s',
    for_each l record_metric (s, w) = (r, (s', w)) ∧
    (s' = s ∨ ∃ ms, s' = set_metrics ms s).
Proof.
  revert s. induction l as [|[metric data] l IH]; intros s.
  - exists (Ok ()), s. by split; [|left].
  - rewrite for_each_cons. destruct data as [|d ds].
    + eexists (Raise _), s. by split; [|left].
    + rewrite record_metric_run by done.
      destruct (IH (set_metrics (<[metric := min_max (d :: ds)]> (default ∅ (metrics s))) s))
        as (r & s' & -> & Hs').
      exists r, s'. split; [done|]. right.
      destruct Hs' as [->|[ms ->]]; by eexists.
Qed.

(** The first empty sequence met by the loop stops it with the
    [ValueError] of [min]. *)
Lemma record_loop_empty l s w :
  (∃ item, item ∈ l ∧ item.2 = []) →
  ∃ s',
    for_each l record_metric (s, w)
      = (Raise (ValueError "min() arg is an empty sequence"), (s', w)) ∧
    (s' = s ∨ ∃ ms, s' = set_metrics ms s).
Proof.
  revert s. induction l as [|[metric data] l IH]; intros s (item & Hin & Hempty).
  - by apply elem_of_nil in Hin.
  - rewrite for_each_cons. destruct data as [|d ds].
    + exists s. by split; [|left].
    + rewrite record_metric_run by done.
      apply elem_of_cons in Hin as [->|Hin]; [done|].
      destruct (IH (set_metrics (<[metric := min_max (d :: ds)]> (default ∅ (metrics s))) s))
        as (s' & -> & Hs'); [by exists item|].
      exists s'. split; [done|]. right.
      destruct Hs' as [->|[ms ->]]; by eexists.
Qed.

(** Saving adds file events only, and none if it raises. *)
Lemma save_block_effect s0 s w :
  ∃ r evs,
    save_block s0 (s, w) = (r, (s, advance 0 (store w) evs w)) ∧
    Forall (λ e, is_file_event e = true) evs ∧
    (is_raise_of r → evs = []).
Proof.
  assert (Hw : (s, w) = (s, advance 0 (store w) [] w)).
  { rewrite advance_nothing. by destruct w. }
  unfold save_block.
  do 4 (rewrite bind_run, lift_run;
        destruct (getitem (meta_data s0) _) as [?|?];
        [|eexists (Raise _), []; rewrite <- Hw; by repeat split]; cbv beta iota).
  rewrite bind_run, lift_run.
  destruct (_ ≫= as_str) as [?|?];
    [|eexists (Raise _), []; rewrite <- Hw; by repeat split].
  cbv beta iota zeta.
  repeat (rewrite bind_run, emit_run; cbv beta iota). rewrite emit_run.
  eexists (Ok ()), [_; _; _; _]. split.
  { unfold log, advance. simpl. rewrite <- !app_assoc. reflexivity. }
  split; [|done]. repeat (apply List.Forall_cons; [reflexivity|]). apply List.Forall_nil.
Qed.

Lemma tick_advance w : tick w = advance 1 (store w) [] w.
Proof. unfold tick, advance. simpl. by rewrite app_nil_r. Qed.

(** [record_results] sets [history], [num_epochs], [ts] and [metrics],
    reads the clock once, and adds file events only. *)
Lemma execution_record_results_effect results s w :
  ∃ r ms evs,
    record_results results (s, w)
      = (r, (set_metrics ms (recording results s w), advance 1 (store w) evs w)) ∧
    Forall (λ e, is_file_event e = true) evs ∧
    (save_models s = false → evs = []) ∧
    (is_raise_of r → evs = []).
Proof.
  rewrite execution_record_results_run.
  destruct (record_loop_outcome (map_to_list (History_history results))
              (recording results s w) (tick w)) as (r & s1 & -> & Hs1).
  assert (Hms : ∃ ms, s1 = set_metrics ms (recording results s w)).
  { destruct Hs1 as [->|[ms ->]]; [by exists ∅|by exists ms]. }
  destruct Hms as [ms ->]. clear Hs1.
  destruct r as [[]|e].
  - cbn [save_models set_metrics recording set_ts set_num_epochs set_history].
    destruct (save_models s) eqn:Hsave.
    + destruct (save_block_effect (set_metrics ms (recording results s w))
                  (set_metrics ms (recording results s w)) (tick w))
        as (r & evs & -> & Hevs & Hraise).
      by exists r, ms, evs.
    + exists (Ok ()), ms, []. rewrite tick_advance. by repeat split.
  - exists (Raise e), ms, []. rewrite tick_advance. by repeat split.
Qed.

(** X4.  Whatever its outcome, [record_results] rewrites four
    attributes only: [history] (the given mapping), [num_epochs], [ts]
    (the clock at the call) and [metrics].  The metadata, and with it
    [meta_data['execution']], keeps the time of construction; the model
    and the configuration are untouched.  It reads the clock once, leaves
    the callback store alone, and adds to the trace nothing but file and
    upload events, none at all when [save_models] is off. *)
Theorem record_results_rewrites_four_attributes results s w :
  let after := record_results results (s, w) in
  history after.2.1 = Some (History_history results) ∧
  ts after.2.1 = time_time (clock_reads w) ∧
  is_Some (metrics after.2.1) ∧
  meta_data after.2.1 = meta_data s ∧
  model after.2.1 = model s ∧
  idx after.2.1 = idx s ∧
  keras_function after.2.1 = keras_function s ∧
  instance_info after.2.1 = instance_info s ∧
  key_metrics after.2.1 = key_metrics s ∧
  save_models after.2.1 = save_models s ∧
  model_name after.2.1 = model_name s ∧
  clock_reads after.2.2 = S (clock_reads w) ∧
  store after.2.2 = store w ∧
  ∃ evs,
    trace after.2.2 = trace w ++ evs ∧
    Forall (λ e, is_file_event e = true) evs ∧
    (save_models s = false → evs = []).
Proof.
  destruct (execution_record_results_effect results s w)
    as (r & ms & evs & Hrun & Hevs & Hoff & _).
  cbv zeta. rewrite Hrun. simpl. repeat split; try done. by exists evs.
Qed.


(** The first metadata key that is missing ends the save in a
    [KeyError], before anything is written. *)
Lemma save_block_missing s0 s w pre k post :
  save_keys = pre ++ k :: post →
  Forall (λ key, is_Some (meta_data s0 !! key)) pre →
  meta_data s0 !! k = None →
  save_block s0 (s, w) = (Raise (KeyError k), (s, w)).
Proof.
  intros Hkeys Hpre Hk. unfold save_keys in Hkeys. unfold save_block, getitem.
  destruct pre as [|k1 pre]; simpl in Hkeys.
  { injection Hkeys as <- _. by rewrite Hk. }
  injection Hkeys as <- Hkeys.
  pose proof (Forall_inv Hpre) as [? ->]. apply Forall_inv_tail in Hpre.
  rewrite bind_run, lift_run. cbv beta iota.
  destruct pre as [|k2 pre]; simpl in Hkeys.
  { injection Hkeys as <- _. by rewrite Hk. }
  injection Hkeys as <- Hkeys.
  pose proof (Forall_inv Hpre) as [? ->]. apply Forall_inv_tail in Hpre.
  rewrite bind_run, lift_run. cbv beta iota.
  destruct pre as [|k3 pre]; simpl in Hkeys.
  { injection Hkeys as <- _. by rewrite Hk. }
  injection Hkeys as <- Hkeys.
  pose proof (Forall_inv Hpre) as [? ->]. apply Forall_inv_tail in Hpre.
  rewrite bind_run, lift_run. cbv beta iota.
  destruct pre as [|k4 pre]; simpl in Hkeys.
  { injection Hkeys as <- _. by rewrite Hk. }
  injection Hkeys as <- Hkeys.
  pose proof (Forall_inv Hpre) as [? ->]. apply Forall_inv_tail in Hpre.
  rewrite bind_run, lift_run. cbv beta iota.
  destruct pre as [|k5 pre]; simpl in Hkeys.
  { injection Hkeys as <- _. by rewrite Hk. }
  injection Hkeys as _ Hkeys. by destruct pre.
Qed.

(** On non-empty sequences the metric loop of [record_results] succeeds. *)
Lemma record_loop_history results s w :
  (∀ key data, History_history results !! key = Some data → data ≠ []) →
  ∃ ms,
    for_each (map_to_list (History_history results)) record_metric
      (recording results s w, tick w)
      = (Ok (), (set_metrics ms (recording results s w), tick w)) ∧
    dom ms = dom (History_history results).
Proof.
  intros Hne.
  destruct (record_loop_run (map_to_list (History_history results))
              (recording results s w) (tick w) ∅) as (ms & Hrun & Hms).
  { reflexivity. }
  { apply NoDup_fst_map_to_list. }
  { apply List.Forall_forall. intros [key data] Hin.
    apply (Hne key). apply elem_of_map_to_list. by apply list_elem_of_In. }
  rewrite list_to_map_to_list in Hms.
  exists ms. split; [done|].
  apply set_eq. intros key. rewrite !elem_of_dom, Hms.
  destruct (History_history results !! key); [|by rewrite lookup_empty].
  split; intros _; by eexists.
Qed.


(** X6.  With [save_models] on and non-empty value sequences, the first
    of the keys project, architecture, instance, execution, local_dir
    (in this order) that the metadata lacks ends [record_results] in a
    [KeyError] for that key.  Nothing has been written or uploaded, but
    the metrics are already recorded for every metric of the history. *)
Theorem record_results_missing_metadata_key results s w pre k post :
  save_models s = true →
  (∀ key data, History_history results !! key = Some data → data ≠ []) →
  save_keys = pre ++ k :: post →
  Forall (λ key, is_Some (meta_data s !! key)) pre →
  meta_data s !! k = None →
  let after := record_results results (s, w) in
  after.1 = Raise (KeyError k) ∧
  trace after.2.2 = trace w ∧
  ∃ ms, metrics after.2.1 = Some ms ∧ dom ms = dom (History_history results).
Proof.
  intros Hsave Hne Hkeys Hpre Hk. cbv zeta.
  rewrite execution_record_results_run.
  destruct (record_loop_history results s w Hne) as (ms & -> & Hdom).
  cbn [save_models set_metrics recording set_ts set_num_epochs set_history].
  rewrite Hsave.
  rewrite (save_block_missing _ _ _ pre k post); try done.
  split; [done|]. split; [done|]. by exists ms.
Qed.

(** X7.  A history in which some metric has an empty value sequence
    ends [record_results] in the [ValueError] of [min]: no file is
    written, yet [history] and [num_epochs] have been set by then. *)
Theorem record_results_empty_sequence results s w key :
  History_history results !! key = Some [] →
  let after := record_results results (s, w) in
  after.1 = Raise (ValueError "min() arg is an empty sequence") ∧
  trace after.2.2 = trace w ∧
  history after.2.1 = Some (History_history results) ∧
  num_epochs after.2.1 = Z.of_nat (size (History_history results)).
Proof.
  intros Hkey. cbv zeta. rewrite execution_record_results_run.
  destruct (record_loop_empty (map_to_list (History_history results))
              (recording results s w) (tick w)) as (s' & -> & Hs').
  { exists (key, []). split; [by apply elem_of_map_to_list|done]. }
  simpl. split; [done|]. split; [done|].
  destruct Hs' as [->|[ms ->]]; by split.
Qed.

End execution_record_results_effects.

(** ** Instance.fit: what it does to the instance *)

Section instance_fit_effects.
Context `{Backend}.
Import Instance.

Lemma file_event_not_summary evs :
  Forall (λ e, is_file_event e = true) evs → Forall (λ e, is_summary e = false) evs.
Proof. intros Hf. eapply List.Forall_impl; [|exact Hf]. by intros []. Qed.

(** The constructor of an execution reads the clock once and adds the
    clone, the wrapping and the summaries to the trace; without
    [display_info] there is no summary. *)
Lemma execution_init_effect m i md g dm di info km kf sm w :
  ∃ e0 evs,
    InstanceExecution.__init__ m i md g dm di info km kf sm w
      = (e0, advance 1 (store w) evs w) ∧
    InstanceExecution.meta_data e0
      = <["execution" := PInt (time_time (clock_reads w))]> md ∧
    InstanceExecution.idx e0 = i ∧
    InstanceExecution.keras_function e0 = kf ∧
    InstanceExecution.save_models e0 = sm ∧
    InstanceExecution.model e0
      = Model.compile (clone_model (tick w) m) (Model.optimizer m) (Model.loss m)
          (Model.metrics m) (Model.loss_weights m) ∧
    unrecorded e0 ∧
    (di = false → Forall (λ e, is_summary e = false) evs).
Proof.
  unfold InstanceExecution.__init__, InstanceExecution.shows.
  destruct di.
  - destruct (bool_decide (dm = Some "base") || bool_decide (dm = Some "both"));
      destruct (decide (g > 1));
      destruct (bool_decide (dm = Some "multi-gpu") || bool_decide (dm = Some "both"));
      simpl; eexists _, _;
      (split; [unfold advance, log, tick; simpl; rewrite <- ?app_assoc; reflexivity|]);
      by repeat split.
  - rewrite !andb_false_r. destruct (decide (g > 1)); simpl; eexists _, _;
      (split; [unfold advance, log, tick; simpl; rewrite <- ?app_assoc; reflexivity|]);
      repeat split; try done; intros _; by repeat constructor.
Qed.

(** Training and recording on an execution: the configuration stays,
    the store only grows, no summary is printed; if it succeeds the
    results are recorded, and if the training itself fails the execution
    is as it was. *)
Lemma run_execution_effect x y kwargs e w :
  ∃ r e1 ticks h evs,
    run_execution x y kwargs (e, w) = (r, (e1, advance ticks h evs w)) ∧
    store w ⊆ h ∧
    Forall (λ ev, is_summary ev = false) evs ∧
    same_configuration e e1 ∧
    (is_raise_of r ∨ is_Some (InstanceExecution.metrics e1) ∧
                     is_Some (InstanceExecution.history e1)) ∧
    (is_raise_of (InstanceExecution.fit x y kwargs (e, w)).1 →
     e1 = e ∧ is_raise_of r).
Proof.
  unfold run_execution. rewrite bind_run.
  destruct (execution_fit_effect x y kwargs e w) as (r & h & evs & -> & Hsub & Hevs).
  assert (Hsum : Forall (λ ev, is_summary ev = false) evs).
  { destruct Hevs as [[-> _]|(c & -> & _)]; by repeat constructor. }
  simpl. destruct r as [results|err].
  - cbv beta iota. rewrite bind_run.
    destruct (execution_record_results_effect results e (advance 0 h evs w))
      as (r & ms & evs2 & -> & Hevs2 & _ & _).
    assert (Hw : advance 1 (store (advance 0 h evs w)) evs2 (advance 0 h evs w)
                 = advance 1 h (evs ++ evs2) w).
    { unfold advance. simpl. by rewrite app_assoc. }
    rewrite Hw.
    destruct r as [[]|err].
    + eexists (Ok results), _, 1%nat, h, (evs ++ evs2). split; [reflexivity|].
      split; [done|]. split.
      { apply Forall_app. split; [done|by apply file_event_not_summary]. }
      split; [by repeat split|]. split; [right; by split; eexists|done].
    + eexists (Raise err), _, 1%nat, h, (evs ++ evs2). split; [reflexivity|].
      split; [done|]. split.
      { apply Forall_app. split; [done|by apply file_event_not_summary]. }
      split; [by repeat split|]. split; [by left|done].
  - exists (Raise err), e, 0%nat, h, evs. split; [reflexivity|].
    split; [done|]. split; [done|]. split; [by repeat split|]. split; [by left|done].
Qed.

Lemma not_resuming resume_execution s :
  resume_execution = false ∨ executions s = [] →
  resume_execution && negb (bool_decide (length (executions s) = 0%nat)) = false.
Proof. intros [->| ->]; [done|]. by destruct resume_execution. Qed.

Lemma record_sizes_fields y kwargs s :
  training_size (record_sizes y kwargs s) = Z.of_nat (length y) ∧
  validation_size (record_sizes y kwargs s)
    = match kw_validation_data kwargs with
      | Some validation_data => Z.of_nat (length validation_data.2)
      | None => validation_size s
      end.
Proof. unfold record_sizes. by destruct (kw_validation_data kwargs). Qed.

(** X8.  A call of [Instance.fit] that does not resume (no resumption
    asked, or no execution yet) appends exactly one execution to the
    list, whatever the outcome of the training: the earlier executions
    are untouched, and the new one carries the instance's metadata with
    its own creation time under the key execution, the instance's index,
    training entry point and saving flag, and a compiled clone of the
    instance's model.  If [fit] returns, the new execution has its
    results recorded. *)
Theorem fit_appends_one_execution x y resume_execution kwargs s w :
  resume_execution = false ∨ executions s = [] →
  let after := fit x y resume_execution kwargs (s, w) in
  ∃ e1,
    executions after.2.1 = executions s ++ [e1] ∧
    InstanceExecution.meta_data e1
      = <["execution" := PInt (time_time (clock_reads w))]> (meta_data s) ∧
    InstanceExecution.idx e1 = idx s ∧
    InstanceExecution.keras_function e1 = keras_function s ∧
    InstanceExecution.save_models e1 = save_models s ∧
    InstanceExecution.model e1
      = Model.compile (clone_model (tick w) (model s)) (Model.optimizer (model s))
          (Model.loss (model s)) (Model.metrics (model s))
          (Model.loss_weights (model s)) ∧
    (is_raise_of after.1 ∨ recorded e1).
Proof.
  intros Hnew%not_resuming. cbv zeta. rewrite fit_new_execution by done. cbv zeta.
  destruct (execution_init_effect (model s) (idx s) (meta_data s) (num_gpu s)
              (if decide (0 < length (executions s))%nat then None else display_model s)
              (if decide (0 < length (executions s))%nat then false else true)
              (__get_instance_info (record_sizes y kwargs s)) (key_metrics s)
              (keras_function s) (save_models s) w)
    as (e0 & evs0 & -> & Hmd & Hidx & Hkf & Hsm & Hmodel & _ & _).
  destruct (run_execution_effect x y kwargs e0 (advance 1 (store w) evs0 w))
    as (r & e1 & ticks & h & evs & -> & _ & _ & (Hmd1 & Hidx1 & Hmodel1 & Hkf1 & Hsm1)
        & Hrec & _).
  exists e1. simpl. split.
  { unfold record_sizes. by destruct (kw_validation_data kwargs). }
  rewrite Hmd1, Hidx1, Hmodel1, Hkf1, Hsm1. repeat (split; [done|]).
  destruct Hrec as [Hr|[Hms Hh]]; [by left|right].
  split; [|done]. rewrite Hmd1, Hmd, lookup_insert_eq. by eexists.
Qed.

(** X9.  Every call of [Instance.fit], whatever its outcome, leaves
    [training_size] equal to the length of [y]; [validation_size] is the
    length of the second component of [validation_data] when that keyword
    is given, and keeps its value otherwise. *)
Theorem fit_records_sizes x y resume_execution kwargs s w :
  let after := fit x y resume_execution kwargs (s, w) in
  training_size after.2.1 = Z.of_nat (length y) ∧
  validation_size after.2.1
    = match kw_validation_data kwargs with
      | Some validation_data => Z.of_nat (length validation_data.2)
      | None => validation_size s
      end.
Proof.
  cbv zeta. pose proof (record_sizes_fields y kwargs s) as Hsizes.
  destruct (resume_execution && negb (bool_decide (length (executions s) = 0%nat)))
    eqn:Hcond.
  - apply andb_true_iff in Hcond as [-> Hne].
    apply negb_true_iff, bool_decide_eq_false in Hne.
    destruct (executions s) as [|e l] eqn:Hex using rev_ind; [done|]. clear IHl.
    rewrite (fit_resume x y kwargs s w l e) by done. cbv zeta.
    destruct (with_initial_epoch _ kwargs) as [kwargs'|ex]; [|done].
    by destruct (run_execution x y kwargs' (e, w)) as [r [e1 w1]].
  - rewrite fit_new_execution by done. cbv zeta.
    destruct (InstanceExecution.__init__ _ _ _ _ _ _ _ _ _ _ _) as [e0 w0].
    by destruct (run_execution x y kwargs (e0, w0)) as [r [e1 w1]].
Qed.

(** X10.  The model summary is displayed once per instance: a call of
    [Instance.fit] on an instance that already has an execution adds no
    summary to the trace, whether it resumes the last execution or
    creates a new one, and whatever [display_model] says. *)
Theorem fit_displays_summary_once x y resume_execution kwargs s w :
  executions s ≠ [] →
  let after := fit x y resume_execution kwargs (s, w) in
  ∃ evs, trace after.2.2 = trace w ++ evs ∧ Forall (λ e, is_summary e = false) evs.
Proof.
  intros Hne. cbv zeta.
  destruct (resume_execution && negb (bool_decide (length (executions s) = 0%nat)))
    eqn:Hcond.
  - apply andb_true_iff in Hcond as [-> _].
    destruct (executions s) as [|e l] eqn:Hex using rev_ind; [done|]. clear IHl.
    rewrite (fit_resume x y kwargs s w l e) by done. cbv zeta.
    destruct (with_initial_epoch _ kwargs) as [kwargs'|ex].
    + destruct (run_execution_effect x y kwargs' e w)
        as (r & e1 & ticks & h & evs & -> & _ & Hsum & _).
      by exists evs.
    + exists []. simpl. by rewrite app_nil_r.
  - rewrite fit_new_execution by done. cbv zeta.
    assert (Hlen : (0 < length (executions s))%nat).
    { destruct (executions s); [done|simpl; lia]. }
    rewrite !decide_True by done.
    destruct (execution_init_effect (model s) (idx s) (meta_data s) (num_gpu s)
                None false (__get_instance_info (record_sizes y kwargs s))
                (key_metrics s) (keras_function s) (save_models s) w)
      as (e0 & evs0 & -> & _ & _ & _ & _ & _ & _ & Hsum0).
    destruct (run_execution_effect x y kwargs e0 (advance 1 (store w) evs0 w))
      as (r & e1 & ticks & h & evs & -> & _ & Hsum & _).
    exists (evs0 ++ evs). simpl. split; [by rewrite app_assoc|].
    apply Forall_app. split; [by apply Hsum0|done].
Qed.

(** A returning [fit] leaves recorded executions only, if it found
    recorded executions only. *)
Lemma fit_recorded x y resume_execution kwargs s w results :
  Forall recorded (executions s) →
  (fit x y resume_execution kwargs (s, w)).1 = Ok results →
  Forall recorded (executions (fit x y resume_execution kwargs (s, w)).2.1).
Proof.
  intros Hall.
  destruct (resume_execution && negb (bool_decide (length (executions s) = 0%nat)))
    eqn:Hcond.
  - apply andb_true_iff in Hcond as [-> _].
    destruct (executions s) as [|e l] eqn:Hex using rev_ind.
    { rewrite fit_new_execution by (rewrite Hex; done). cbv zeta.
      destruct (execution_init_effect (model s) (idx s) (meta_data s) (num_gpu s)
                  (if decide (0 < length (executions s))%nat then None
                   else display_model s)
                  (if decide (0 < length (executions s))%nat then false else true)
                  (__get_instance_info (record_sizes y kwargs s)) (key_metrics s)
                  (keras_function s) (save_models s) w)
        as (e0 & evs0 & -> & Hmd & _).
      destruct (run_execution_effect x y kwargs e0 (advance 1 (store w) evs0 w))
        as (r & e1 & ticks & h & evs & -> & _ & _ & (Hmd1 & _) & Hrec & _).
      simpl. intros ->. rewrite Hex. simpl. apply List.Forall_cons; [|done].
      destruct Hrec as [[]|[Hms Hh]]. split; [|done].
      rewrite Hmd1, Hmd, lookup_insert_eq. by eexists. }
    clear IHl. rewrite (fit_resume x y kwargs s w l e) by done. cbv zeta.
    apply Forall_app in Hall as [Hl He].
    apply Forall_inv in He. destruct He as (Hid & _ & _).
    destruct (with_initial_epoch _ kwargs) as [kwargs'|ex]; [|done].
    destruct (run_execution_effect x y kwargs' e w)
      as (r & e1 & ticks & h & evs & -> & _ & _ & (Hmd1 & _) & Hrec & _).
    simpl. intros ->. apply Forall_app. split; [done|].
    apply List.Forall_cons; [|done].
    destruct Hrec as [[]|[Hms Hh]]. split; [|done]. by rewrite Hmd1.
  - rewrite fit_new_execution by done. cbv zeta.
    destruct (execution_init_effect (model s) (idx s) (meta_data s) (num_gpu s)
                (if decide (0 < length (executions s))%nat then None
                 else display_model s)
                (if decide (0 < length (executions s))%nat then false else true)
                (__get_instance_info (record_sizes y kwargs s)) (key_metrics s)
                (keras_function s) (save_models s) w)
      as (e0 & evs0 & -> & Hmd & _).
    destruct (run_execution_effect x y kwargs e0 (advance 1 (store w) evs0 w))
      as (r & e1 & ticks & h & evs & -> & _ & _ & (Hmd1 & _) & Hrec & _).
    simpl. intros ->. apply Forall_app. split; [done|].
    apply List.Forall_cons; [|done].
    destruct Hrec as [[]|[Hms Hh]]. split; [|done].
    rewrite Hmd1, Hmd, lookup_insert_eq. by eexists.
Qed.

(** X11.  Recorded executions stay recorded: if every execution of the
    instance has its results recorded and [Instance.fit] returns, then
    every execution of the instance, the new or resumed one included,
    has its results recorded. *)
Theorem fit_keeps_executions_recorded x y resume_execution kwargs s w results :
  Forall recorded (executions s) →
  (fit x y resume_execution kwargs (s, w)).1 = Ok results →
  Forall recorded (executions (fit x y resume_execution kwargs (s, w)).2.1).
Proof. apply fit_recorded. Qed.

(** [fit] changes the two sizes and the list of executions, nothing
    else of the instance. *)
Lemma fit_frame x y resume_execution kwargs s w :
  ∃ l, (fit x y resume_execution kwargs (s, w)).2.1
       = set_executions l (record_sizes y kwargs s).
Proof.
  destruct (resume_execution && negb (bool_decide (length (executions s) = 0%nat)))
    eqn:Hcond.
  - apply andb_true_iff in Hcond as [-> Hne].
    apply negb_true_iff, bool_decide_eq_false in Hne.
    destruct (executions s) as [|e l] eqn:Hex using rev_ind; [done|]. clear IHl.
    rewrite (fit_resume x y kwargs s w l e) by done. cbv zeta.
    destruct (with_initial_epoch _ kwargs) as [kwargs'|ex]; [|by eexists].
    destruct (run_execution x y kwargs' (e, w)) as [r [e1 w1]]. by eexists.
  - rewrite fit_new_execution by done. cbv zeta.
    destruct (InstanceExecution.__init__ _ _ _ _ _ _ _ _ _ _ _) as [e0 w0].
    destruct (run_execution x y kwargs (e0, w0)) as [r [e1 w1]]. by eexists.
Qed.

Lemma execution_fit_fails x y kwargs e w :
  (∀ w0 c, is_raise_of (train w0 c)) →
  is_raise_of (InstanceExecution.fit x y kwargs (e, w)).1.
Proof.
  intros Hfail.
  destruct (execution_fit_effect x y kwargs e w) as (r & h & evs & -> & _ & Hevs).
  simpl. destruct Hevs as [[_ Hr]|(c & _ & _ & ->)]; [done|apply Hfail].
Qed.

(** X12.  When the training cannot succeed, a non-resuming
    [Instance.fit] raises, and the execution it has created stays at the
    end of the list in the state its constructor left it: without
    [history], without [metrics], and with [num_epochs] equal to -1. *)
Theorem fit_failed_training_leaves_unrecorded_execution
    x y resume_execution kwargs s w :
  (∀ w0 c, is_raise_of (train w0 c)) →
  resume_execution = false ∨ executions s = [] →
  let after := fit x y resume_execution kwargs (s, w) in
  is_raise_of after.1 ∧
  ∃ e1, executions after.2.1 = executions s ++ [e1] ∧ unrecorded e1.
Proof.
  intros Hfail Hnew%not_resuming. cbv zeta. rewrite fit_new_execution by done.
  cbv zeta.
  destruct (execution_init_effect (model s) (idx s) (meta_data s) (num_gpu s)
              (if decide (0 < length (executions s))%nat then None else display_model s)
              (if decide (0 < length (executions s))%nat then false else true)
              (__get_instance_info (record_sizes y kwargs s)) (key_metrics s)
              (keras_function s) (save_models s) w)
    as (e0 & evs0 & -> & _ & _ & _ & _ & _ & Hun & _).
  destruct (run_execution_effect x y kwargs e0 (advance 1 (store w) evs0 w))
    as (r & e1 & ticks & h & evs & -> & _ & _ & _ & _ & Hsame).
  destruct Hsame as [-> Hr]; [by apply execution_fit_fails|].
  simpl. split; [done|]. exists e0. split; [|done].
  unfold record_sizes. by destruct (kw_validation_data kwargs).
Qed.

Lemma filter_no_train evs :
  Forall (λ e, is_train e = false) evs → List.filter is_train evs = [].
Proof.
  induction 1 as [|e evs He _ IH]; [done|]. simpl. by rewrite He.
Qed.

Lemma file_event_not_train evs :
  Forall (λ e, is_file_event e = true) evs → Forall (λ e, is_train e = false) evs.
Proof. intros Hf. eapply List.Forall_impl; [|exact Hf]. by intros []. Qed.

Lemma no_train_not_elem evs c :
  Forall (λ e, is_train e = false) evs → EvTrain c ∉ evs.
Proof.
  intros Hf Hin. rewrite List.Forall_forall in Hf.
  apply list_elem_of_In in Hin. by apply Hf in Hin.
Qed.

(** The constructor of an execution trains nothing. *)
Lemma execution_init_trace m i md g dm di info km kf sm w :
  ∃ evs,
    trace (InstanceExecution.__init__ m i md g dm di info km kf sm w).2
      = trace w ++ evs ∧
    Forall (λ e, is_train e = false) evs.
Proof.
  unfold InstanceExecution.__init__.
  destruct (InstanceExecution.shows "base" dm di); destruct (decide (g > 1));
    destruct (InstanceExecution.shows "multi-gpu" dm di);
    simpl; rewrite <- ?app_assoc; eexists; (split; [reflexivity|]);
    by repeat constructor.
Qed.

(** Training and recording on an execution make at most one training
    call, on the execution's model. *)
Lemma run_execution_trace x y kwargs e w :
  ∃ evs,
    trace (run_execution x y kwargs (e, w)).2.2 = trace w ++ evs ∧
    (length (List.filter is_train evs) ≤ 1)%nat ∧
    ∀ c, EvTrain c ∈ evs → call_model c = InstanceExecution.model e.
Proof.
  unfold run_execution. rewrite bind_run.
  destruct (execution_fit_effect x y kwargs e w) as (r & h & evs & -> & _ & Hevs).
  assert (Hone : (length (List.filter is_train evs) ≤ 1)%nat ∧
                 ∀ c, EvTrain c ∈ evs → call_model c = InstanceExecution.model e).
  { destruct Hevs as [[-> _]|(c & -> & Hc & _)].
    - split; [simpl; lia|]. intros c Hin. by apply elem_of_nil in Hin.
    - split; [simpl; lia|]. intros c' Hin.
      apply list_elem_of_singleton in Hin. by injection Hin as ->. }
  destruct Hone as [Hcount Hmodel].
  destruct r as [results|err]; [|by exists evs].
  cbv beta iota. rewrite bind_run.
  destruct (execution_record_results_effect results e (advance 0 h evs w))
    as (r & ms & evs2 & -> & Hevs2 & _ & _).
  apply file_event_not_train in Hevs2.
  exists (evs ++ evs2). split.
  { destruct r as [[]|err]; simpl; by rewrite app_assoc. }
  split.
  - by rewrite List.filter_app, (filter_no_train evs2), app_nil_r.
  - intros c [Hin|Hin]%elem_of_app; [by apply Hmodel|].
    by apply no_train_not_elem in Hin.
Qed.

(** X13.  A call of [Instance.fit], resuming or not and whatever its
    outcome, makes at most one training call, and that call is made on
    the model held by the execution it works on, which is the last of
    the list once the call is over. *)
Theorem fit_trains_the_execution_model x y resume_execution kwargs s w :
  let after := fit x y resume_execution kwargs (s, w) in
  ∃ evs,
    trace after.2.2 = trace w ++ evs ∧
    (length (List.filter is_train evs) ≤ 1)%nat ∧
    ∀ c, EvTrain c ∈ evs →
      ∃ e, last (executions after.2.1) = Some e ∧
           call_model c = InstanceExecution.model e.
Proof.
  cbv zeta.
  destruct (resume_execution && negb (bool_decide (length (executions s) = 0%nat)))
    eqn:Hcond.
  - apply andb_true_iff in Hcond as [-> Hne].
    apply negb_true_iff, bool_decide_eq_false in Hne.
    destruct (executions s) as [|e l] eqn:Hex using rev_ind; [done|]. clear IHl.
    rewrite (fit_resume x y kwargs s w l e) by done. cbv zeta.
    destruct (with_initial_epoch _ kwargs) as [kwargs'|ex].
    + destruct (run_execution_trace x y kwargs' e w) as (evs & Htrace & Hcount & Hmodel).
      destruct (run_execution_effect x y kwargs' e w)
        as (r & e1 & ticks & h & evs' & Hrun & _ & _ & (_ & _ & Hm & _) & _).
      rewrite Hrun in Htrace |- *. exists evs. simpl in *.
      split; [done|]. split; [done|]. intros c Hin. exists e1.
      split; [by rewrite last_snoc|]. rewrite Hm. by apply Hmodel.
    + exists []. simpl. split; [by rewrite app_nil_r|]. split; [lia|].
      intros c Hin. by apply elem_of_nil in Hin.
  - rewrite fit_new_execution by done. cbv zeta.
    destruct (execution_init_trace (model s) (idx s) (meta_data s) (num_gpu s)
                (if decide (0 < length (executions s))%nat then None
                 else display_model s)
                (if decide (0 < length (executions s))%nat then false else true)
                (__get_instance_info (record_sizes y kwargs s)) (key_metrics s)
                (keras_function s) (save_models s) w) as (evs0 & Htrace0 & Hno).
    destruct (InstanceExecution.__init__ _ _ _ _ _ _ _ _ _ _ _) as [e0 w0].
    destruct (run_execution_trace x y kwargs e0 w0) as (evs & Htrace & Hcount & Hmodel).
    destruct (run_execution_effect x y kwargs e0 w0)
      as (r & e1 & ticks & h & evs' & Hrun & _ & _ & (_ & _ & Hm & _) & _).
    rewrite Hrun in Htrace |- *. exists (evs0 ++ evs). simpl in *.
    split; [by rewrite Htrace, Htrace0, app_assoc|]. split.
    + by rewrite List.filter_app, (filter_no_train evs0), app_nil_l.
    + intros c [Hin|Hin]%elem_of_app; [by apply no_train_not_elem in Hin|].
      exists e1. split; [by rewrite last_snoc|]. rewrite Hm. by apply Hmodel.
Qed.

End instance_fit_effects.

(** ** Instance.record_results: what it writes and when it fails *)

Section instance_record_results_effects.
Context `{Backend}.
Import Instance.

(** [record_results] computes the report first and touches the instance
    and the files only at the end. *)
Lemma instance_record_results_pure s w :
  record_results (s, w) =
    match build_report s with
    | Ok (report, path) =>
        (Ok report,
         (set_results report s,
          log (EvCloudSave path "results" (meta_data s))
            (log (EvWrite path (ResultsJson report)) w)))
    | Raise e => (Raise e, (s, w))
    end.
Proof.
  unfold record_results, build_report. rewrite bind_run.
  change (self (s, w)) with (Ok s, (s, w)). cbv beta iota zeta.
  cbn [info_key_metrics __get_instance_info].
  rewrite bind_run, lift_run.
  destruct (getitem (meta_data s) "local_dir") as [local_dir|e]; cbn [mbind result_bind]; cbv beta iota; [|done].
  rewrite bind_run, lift_run.
  destruct (collect_executions (executions s) ∅ []) as [[em infos]|e]; cbn [mbind result_bind]; cbv beta iota; [|done].
  rewrite bind_run, lift_run.
  destruct (aggregate em) as [agg|e]; cbn [mbind result_bind]; cbv beta iota; [|done].
  rewrite bind_run, lift_run.
  destruct (report_key_metrics (key_metrics s) agg ∅) as [km|e]; cbn [mbind result_bind]; cbv beta iota; [|done].
  rewrite bind_run, lift_run.
  destruct (getitem (meta_data s) "project") as [p|e]; cbn [mbind result_bind]; cbv beta iota; [|done].
  rewrite bind_run, lift_run.
  destruct (getitem (meta_data s) "architecture") as [a|e]; cbn [mbind result_bind]; cbv beta iota; [|done].
  rewrite bind_run, lift_run.
  destruct (getitem (meta_data s) "instance") as [i|e]; cbn [mbind result_bind]; cbv beta iota; [|done].
  rewrite bind_run, lift_run.
  destruct (as_str local_dir) as [d|e]; cbn [mbind result_bind]; cbv beta iota; [|done].
 
  repeat (rewrite bind_run; cbv beta iota).
  reflexivity.
Qed.

(** [build_report] does not read the attribute [results]. *)
Lemma build_report_set_results report s :
  build_report (set_results report s) = build_report s.
Proof. reflexivity. Qed.

(** On recorded executions the collection and the aggregation succeed. *)
Lemma collect_and_aggregate l :
  Forall recorded l →
  ∃ em,
    collect_executions l ∅ [] = Ok (em, execution_info <$> l) ∧
    (∀ metric, em !! metric = collected l metric) ∧
    aggregate em = Ok (stats_map <$> em).
Proof.
  intros Hrec.
  destruct (collect_executions_run l [] ∅ [] Hrec) as (em & Hcollect & Hem).
  { intros metric. unfold collected. simpl. by rewrite lookup_empty. }
  simpl in Hcollect, Hem. exists em. split; [done|]. split; [done|].
  apply aggregate_run.
  intros metric directions. rewrite Hem. unfold collected.
  pose proof (per_execution_length metric l) as Hlen.
  destruct (per_execution mm_min metric l) as [|q qs]; [done|].
  intros [= <-]. split; [apply insert_non_empty|].
  intros d data. unfold both_directions.
  destruct (decide (d = "max")) as [->|Hmax].
  { rewrite lookup_insert_eq. intros [= <-].
    by destruct (per_execution mm_max metric l). }
  rewrite lookup_insert_ne by done.
  destruct (decide (d = "min")) as [->|Hmin].
  { rewrite lookup_insert_eq. by intros [= <-]. }
  by rewrite lookup_insert_ne, lookup_empty by done.
Qed.


(** The loop stops at the first key metric whose direction the
    aggregate does not have. *)
Lemma report_key_metrics_bad pre name direction post
    (agg : gmap string (gmap string Stats)) directions :
  (∀ tm ds, tm ∈ pre → agg !! tm.1 = Some ds → is_Some (ds !! tm.2)) →
  agg !! name = Some directions →
  directions !! direction = None →
  ∀ km, report_key_metrics (pre ++ (name, direction) :: post) agg km
        = Raise (KeyError direction).
Proof.
  intros Hpre Hagg Hdir. induction pre as [|tm pre IH]; intros km.
  - simpl. rewrite Hagg. unfold getitem. by rewrite Hdir.
  - simpl. destruct (agg !! tm.1) as [ds|] eqn:Htm.
    + destruct (Hpre tm ds) as [st Hst]; [left|done|].
      unfold getitem. rewrite Hst. simpl. apply IH.
      intros tm' ds' Hin. apply Hpre. by right.
    + apply IH. intros tm' ds' Hin. apply Hpre. by right.
Qed.

(** The collection stops at the first execution without [metrics]. *)
Lemma collect_executions_unrecorded pre e post :
  Forall recorded pre →
  is_Some (InstanceExecution.meta_data e !! "execution") →
  InstanceExecution.metrics e = None →
  ∀ em infos,
    collect_executions (pre ++ e :: post) em infos
      = Raise (AttributeError "InstanceExecution" "metrics").
Proof.
  intros Hpre [id Hid] Hms. induction pre as [|e0 pre IH]; intros em infos.
  - simpl. unfold getitem. by rewrite Hid, Hms.
  - pose proof (Forall_inv Hpre) as ([id0 Hid0] & [ms0 Hms0] & [h0 Hh0]).
    apply Forall_inv_tail in Hpre.
    simpl. unfold getitem. rewrite Hid0, Hms0, Hh0. simpl. by apply IH.
Qed.

Lemma build_report_unrecorded s pre e post :
  is_Some (meta_data s !! "local_dir") →
  executions s = pre ++ e :: post →
  Forall recorded pre →
  is_Some (InstanceExecution.meta_data e !! "execution") →
  InstanceExecution.metrics e = None →
  build_report s = Raise (AttributeError "InstanceExecution" "metrics").
Proof.
  intros [d Hd] Hex Hpre Hid Hms. unfold build_report, getitem.
  rewrite Hd, Hex. cbn [mbind result_bind].
  by rewrite (collect_executions_unrecorded pre e post Hpre Hid Hms).
Qed.

Lemma stats_map_both_directions mins maxs d :
  stats_map (both_directions mins maxs) !! d =
    if decide (d = "min") then Some (stats_of mins)
    else if decide (d = "max") then Some (stats_of maxs)
    else None.
Proof.
  unfold stats_map, both_directions. rewrite !fmap_insert, fmap_empty.
  destruct (decide (d = "min")) as [->|Hmin].
  { by rewrite lookup_insert_ne, lookup_insert_eq. }
  destruct (decide (d = "max")) as [->|Hmax].
  { by rewrite lookup_insert_eq. }
  by rewrite !lookup_insert_ne, lookup_empty.
Qed.

Lemma aggregated_lookup l (em : gmap string (gmap string (list Qc))) name :
  (∀ metric, em !! metric = collected l metric) →
  (stats_map <$> em) !! name =
    match per_execution mm_min name l with
    | [] => None
    | _ => Some (stats_map (both_directions (per_execution mm_min name l)
                              (per_execution mm_max name l)))
    end.
Proof.
  intros Hem. rewrite lookup_fmap, Hem. unfold collected.
  by destruct (per_execution mm_min name l).
Qed.

(** With metadata that names the results file, recorded executions and
    key metrics that succeed, the report is built. *)
Lemma build_report_recorded s d p a i :
  meta_data s !! "local_dir" = Some (PStr d) →
  meta_data s !! "project" = Some p →
  meta_data s !! "architecture" = Some a →
  meta_data s !! "instance" = Some i →
  Forall recorded (executions s) →
  Forall (λ tm : string * string, tm.2 = "min" ∨ tm.2 = "max") (key_metrics s) →
  ∃ em km,
    (∀ metric, em !! metric = collected (executions s) metric) ∧
    report_key_metrics (key_metrics s) (stats_map <$> em) ∅ = Ok km ∧
    build_report s =
      Ok (assemble s (execution_info <$> executions s) (stats_map <$> em) km,
          path_join d (dash3 (py_str p) (py_str a) (py_str i) +:+ "-results.json")).
Proof.
  intros Hd Hp Ha Hi Hrec Hkm.
  destruct (collect_and_aggregate (executions s) Hrec) as (em & Hcollect & Hem & Hagg).
  destruct (report_key_metrics_ok (key_metrics s) (stats_map <$> em) ∅) as [km Hkmr].
  { intros tm directions Hin. rewrite (aggregated_lookup (executions s)) by done.
    destruct (per_execution mm_min tm.1 (executions s)) as [|q qs]; [done|].
    intros [= <-]. rewrite stats_map_both_directions.
    rewrite List.Forall_forall in Hkm. apply list_elem_of_In in Hin.
    destruct (Hkm tm Hin) as [-> | ->]; by eexists. }
  exists em, km. split; [done|]. split; [done|].
  unfold build_report, getitem. rewrite Hd, Hp, Ha, Hi, Hcollect.
  cbn [mbind result_bind]. rewrite Hagg. cbn [mbind result_bind].
  rewrite Hkmr. reflexivity.
Qed.

(** X14.  [Instance.record_results] fails without effect: whenever it
    raises, the instance is as it was before the call (no [results]
    attribute is set) and nothing was written, locally or to the cloud. *)
Theorem record_results_raises_without_effect s w :
  is_raise_of (record_results (s, w)).1 →
  (record_results (s, w)).2 = (s, w).
Proof.
  rewrite instance_record_results_pure.
  by destruct (build_report s) as [[report path]|e].
Qed.



(** X17.  A key metric whose direction is neither min nor max, on a
    metric that some execution recorded, makes [Instance.record_results]
    raise KeyError with that direction; nothing is written and the
    instance is unchanged. *)
Theorem record_results_unknown_direction s w pre name direction post :
  is_Some (meta_data s !! "local_dir") →
  Forall recorded (executions s) →
  key_metrics s = pre ++ (name, direction) :: post →
  Forall (λ tm : string * string, tm.2 = "min" ∨ tm.2 = "max") pre →
  direction ≠ "min" → direction ≠ "max" →
  per_execution mm_min name (executions s) ≠ [] →
  record_results (s, w) = (Raise (KeyError direction), (s, w)).
Proof.
  intros [d Hd] Hrec Hkm Hpre Hmin Hmax Hname.
  destruct (collect_and_aggregate (executions s) Hrec) as (em & Hcollect & Hem & Hagg).
  rewrite instance_record_results_pure.
  unfold build_report, getitem. rewrite Hd, Hcollect.
  cbn [mbind result_bind]. rewrite Hagg. cbn [mbind result_bind]. rewrite Hkm.
  rewrite (report_key_metrics_bad pre name direction post (stats_map <$> em)
             (stats_map (both_directions (per_execution mm_min name (executions s))
                           (per_execution mm_max name (executions s))))); [done|..].
  - intros tm ds Hin. rewrite (aggregated_lookup (executions s)) by done.
    destruct (per_execution mm_min tm.1 (executions s)) as [|q qs]; [done|].
    intros [= <-]. rewrite stats_map_both_directions.
    rewrite List.Forall_forall in Hpre. apply list_elem_of_In in Hin.
    destruct (Hpre tm Hin) as [-> | ->]; by eexists.
  - rewrite (aggregated_lookup (executions s)) by done.
    by destruct (per_execution mm_min name (executions s)).
  - rewrite stats_map_both_directions. by rewrite !decide_False.
Qed.

(** X18.  An execution that never recorded results stops
    [Instance.record_results]: if the executions before it are recorded
    and it has no [metrics], the call raises AttributeError for the
    attribute metrics, writes nothing and leaves the instance as it
    was. *)
Theorem record_results_unrecorded_execution s w pre e post :
  is_Some (meta_data s !! "local_dir") →
  executions s = pre ++ e :: post →
  Forall recorded pre →
  is_Some (InstanceExecution.meta_data e !! "execution") →
  InstanceExecution.metrics e = None →
  record_results (s, w) = (Raise (AttributeError "InstanceExecution" "metrics"), (s, w)).
Proof.
  intros Hd Hex Hpre Hid Hms. rewrite instance_record_results_pure.
  by rewrite (build_report_unrecorded s pre e post).
Qed.

(** X19.  A failed training poisons the instance: after a non-resuming
    [Instance.fit] in which the [fit] of the newly constructed execution
    raised (because the training call raised, or before it), on an
    instance whose earlier executions are all recorded,
    [Instance.record_results] raises AttributeError for the attribute
    metrics of the execution the failed call left behind, and writes
    nothing.  Only this one call has to fail: other training calls of
    the same collaborators may succeed. *)
Theorem record_results_after_failed_fit x y resume_execution kwargs s w :
  resume_execution = false ∨ executions s = [] →
  is_raise_of (InstanceExecution.fit x y kwargs (new_execution y kwargs s w)).1 →
  is_Some (meta_data s !! "local_dir") →
  Forall recorded (executions s) →
  let after := fit x y resume_execution kwargs (s, w) in
  is_raise_of after.1 ∧
  record_results after.2
    = (Raise (AttributeError "InstanceExecution" "metrics"), after.2).
Proof.
  intros Hnew%not_resuming Hfail Hd Hrec. cbv zeta.
  rewrite fit_new_execution by done. cbv zeta. unfold new_execution in Hfail.
  destruct (execution_init_effect (model s) (idx s) (meta_data s) (num_gpu s)
              (if decide (0 < length (executions s))%nat then None else display_model s)
              (if decide (0 < length (executions s))%nat then false else true)
              (__get_instance_info (record_sizes y kwargs s)) (key_metrics s)
              (keras_function s) (save_models s) w)
    as (e0 & evs0 & Hinit & Hmd & _ & _ & _ & _ & (Hms & _) & _).
  rewrite Hinit in Hfail |- *.
  destruct (run_execution_effect x y kwargs e0 (advance 1 (store w) evs0 w))
    as (r & e1 & ticks & h & evs & -> & _ & _ & _ & _ & Hsame).
  destruct Hsame as [-> Hr]; [exact Hfail|].
  simpl. split; [done|].
  rewrite instance_record_results_pure.
  rewrite (build_report_unrecorded _ (executions s) e0 []); try done.
  - simpl. unfold record_sizes. by destruct (kw_validation_data kwargs).
  - rewrite Hmd, lookup_insert_eq. by eexists.
Qed.

(** X20.  [Instance.record_results] can be repeated: once it has
    returned a report, calling it again on the resulting instance, in
    any state of the world, returns the same report and leaves the
    instance as it is. *)
Theorem record_results_twice s w report w2 :
  (record_results (s, w)).1 = Ok report →
  let again := record_results ((record_results (s, w)).2.1, w2) in
  again.1 = Ok report ∧ again.2.1 = (record_results (s, w)).2.1.
Proof.
  rewrite instance_record_results_pure.
  destruct (build_report s) as [[report0 path]|e] eqn:Hbuild; [|done].
  simpl. intros [= ->].
  by rewrite instance_record_results_pure, build_report_set_results, Hbuild.
Qed.


(** X22.  The normal workflow: on an instance whose metadata name the
    results file, whose executions are all recorded and whose key metrics
    ask for min or max, a call of [Instance.fit] that returns can be
    followed by [Instance.record_results], which then returns a report
    with one entry per execution of the instance, in order and at least
    one, and with [training_size] equal to the length of [y]. *)
Theorem fit_then_record_results x y resume_execution kwargs s w results :
  names_results_file (meta_data s) →
  Forall recorded (executions s) →
  Forall (λ tm : string * string, tm.2 = "min" ∨ tm.2 = "max") (key_metrics s) →
  (fit x y resume_execution kwargs (s, w)).1 = Ok results →
  let after := fit x y resume_execution kwargs (s, w) in
  ∃ report,
    (record_results after.2).1 = Ok report ∧
    rp_executions report = execution_info <$> executions after.2.1 ∧
    executions after.2.1 ≠ [] ∧
    info_training_size (rp_info report) = Z.of_nat (length y).
Proof.
  intros ([d Hd] & [p Hp] & [a Ha] & [i Hi]) Hrec Hkm Hok. cbv zeta.
  pose proof (fit_recorded x y resume_execution kwargs s w results Hrec Hok) as Hrec'.
  destruct (fit_frame x y resume_execution kwargs s w) as [l Hframe].
  assert (Hne : executions (fit x y resume_execution kwargs (s, w)).2.1 ≠ []).
  { pose proof (fit_resume_creates_no_execution x y kwargs s w) as Hresume.
    destruct (resume_execution
              && negb (bool_decide (length (executions s) = 0%nat))) eqn:Hcond.
    - apply andb_true_iff in Hcond as [-> Hlen].
      apply negb_true_iff, bool_decide_eq_false in Hlen.
      intros Hnil. rewrite Hnil in Hresume. simpl in Hresume.
      apply Hlen. symmetry. apply Hresume.
      intros Hex. apply Hlen. by rewrite Hex.
    - rewrite fit_new_execution by done. cbv zeta.
      destruct (InstanceExecution.__init__ _ _ _ _ _ _ _ _ _ _ _) as [e0 w0].
      destruct (run_execution x y kwargs (e0, w0)) as [r [e1 w1]]. simpl.
      by destruct (executions s). }
  destruct (fit x y resume_execution kwargs (s, w)) as [r [s' w']].
  simpl in *. subst s'.
  assert (Hfields : meta_data (set_executions l (record_sizes y kwargs s)) = meta_data s ∧
                    key_metrics (set_executions l (record_sizes y kwargs s))
                      = key_metrics s).
  { unfold record_sizes. by destruct (kw_validation_data kwargs). }
  destruct Hfields as [Hmd Hkms].
  destruct (build_report_recorded (set_executions l (record_sizes y kwargs s)) d p a i)
    as (em & kms & _ & _ & Hbuild); rewrite ?Hmd, ?Hkms; try done.
  rewrite instance_record_results_pure, Hbuild.
  eexists. split; [reflexivity|]. split; [done|]. split; [done|].
  simpl. apply record_sizes_fields.
Qed.

End instance_record_results_effects.

(** ** The further properties on the concrete run *)

(** X1 on the execution with a [model_name]: the copy is patched, the
    caller's TensorBoard callback is not. *)
Lemma fit_keeps_caller_callbacks_witness :
  store named_execution.2 !! 1%positive
    = Some (KerasCallback "<class 'keras.callbacks.TensorBoard'>" (Some "logs")) ∧
  store (@InstanceExecution.fit demo_backend demo_x demo_y tensorboard_kwargs
           (named_execution.1, named_execution.2)).2.2 !! 1%positive
    = Some (KerasCallback "<class 'keras.callbacks.TensorBoard'>" (Some "logs")).
Proof.
  split; [reflexivity|].
  apply (@fit_keeps_caller_callbacks demo_backend). reflexivity.
Defined.

Lemma plain_world_callbacks :
  Forall (plain_callback (store plain_world)) (default [] (kw_callbacks plain_kwargs)).
Proof.
  apply List.Forall_cons; [|apply List.Forall_nil].
  exists (KerasCallback "<class 'keras.callbacks.EarlyStopping'>" None).
  split; reflexivity.
Qed.

(** X3 on an execution in fit mode and the caller's EarlyStopping
    callback. *)
Lemma fit_hands_over_copies_and_tuner_callback_witness :
  InstanceExecution.keras_function (demo_execution "fit").1 = "fit" ∧
  Forall (plain_callback (store plain_world)) (default [] (kw_callbacks plain_kwargs)) ∧
  ∃ copies tcb h c,
    c = ModelFit (InstanceExecution.model (demo_execution "fit").1) demo_x demo_y
          (set_kw_callbacks (copies ++ [tcb]) plain_kwargs) ∧
    (@InstanceExecution.fit demo_backend demo_x demo_y plain_kwargs
       ((demo_execution "fit").1, plain_world)
     = (@train demo_backend (set_store h plain_world) c,
        ((demo_execution "fit").1, log (EvTrain c) (set_store h plain_world)))) ∧
    Forall2 (λ a a', h !! a' = store plain_world !! a)
      (default [] (kw_callbacks plain_kwargs)) copies ∧
    Forall (λ a', a' ∉ dom (store plain_world)) copies ∧
    (tcb ∉ dom (store plain_world)) ∧
    h !! tcb
      = Some (TunerCallback (InstanceExecution.instance_info (demo_execution "fit").1)
                (InstanceExecution.key_metrics (demo_execution "fit").1)
                (InstanceExecution.meta_data (demo_execution "fit").1)) ∧
    store plain_world ⊆ h.
Proof.
  split; [reflexivity|]. split; [exact plain_world_callbacks|].
  apply (@fit_hands_over_copies_and_tuner_callback demo_backend);
    [reflexivity|exact plain_world_callbacks].
Defined.


Lemma saving_execution_present :
  Forall (λ key, is_Some (InstanceExecution.meta_data incomplete_saving_execution.1
                            !! key))
    ["project"; "architecture"].
Proof.
  apply List.Forall_cons; [by eexists|].
  apply List.Forall_cons; [by eexists|]. apply List.Forall_nil.
Qed.

(** X6 on an execution that saves its model, with metadata that lack
    the key instance. *)
Lemma record_results_missing_metadata_key_witness :
  InstanceExecution.save_models incomplete_saving_execution.1 = true ∧
  (∀ key data, History_history first_history !! key = Some data → data ≠ []) ∧
  save_keys = ["project"; "architecture"] ++ "instance" :: ["execution"; "local_dir"] ∧
  Forall (λ key, is_Some (InstanceExecution.meta_data incomplete_saving_execution.1 !! key))
    ["project"; "architecture"] ∧
  InstanceExecution.meta_data incomplete_saving_execution.1 !! "instance" = None ∧
  let after := @InstanceExecution.record_results demo_backend first_history (incomplete_saving_execution.1, incomplete_saving_execution.2) in
  after.1 = Raise (KeyError "instance") ∧
  trace after.2.2 = trace incomplete_saving_execution.2 ∧
  ∃ ms, InstanceExecution.metrics after.2.1 = Some ms ∧
        dom ms = dom (History_history first_history).
Proof.
  split; [reflexivity|]. split; [exact first_history_nonempty|].
  split; [reflexivity|]. split; [exact saving_execution_present|].
  split; [reflexivity|].
  apply (@record_results_missing_metadata_key demo_backend first_history incomplete_saving_execution.1 incomplete_saving_execution.2
           ["project"; "architecture"] "instance" ["execution"; "local_dir"]);
    [reflexivity|exact first_history_nonempty|reflexivity|
     exact saving_execution_present|reflexivity].
Defined.

(** X7 on a history whose only metric has no value. *)
Lemma record_results_empty_sequence_witness :
  History_history empty_history !! "acc" = Some [] ∧
  let after := @InstanceExecution.record_results demo_backend empty_history
                 ((demo_execution "fit").1, (demo_execution "fit").2) in
  after.1 = Raise (ValueError "min() arg is an empty sequence") ∧
  trace after.2.2 = trace (demo_execution "fit").2 ∧
  InstanceExecution.history after.2.1 = Some (History_history empty_history) ∧
  InstanceExecution.num_epochs after.2.1
    = Z.of_nat (size (History_history empty_history)).
Proof.
  split; [reflexivity|].
  apply (@record_results_empty_sequence demo_backend empty_history
           (demo_execution "fit").1 (demo_execution "fit").2 "acc").
  reflexivity.
Defined.

(** X8 on the instance after its first fit: a second, non-resuming fit. *)
Lemma fit_appends_one_execution_witness :
  (false = false ∨ Instance.executions demo_instance_1.1 = []) ∧
  let after := @Instance.fit demo_backend demo_x demo_y false no_kwargs
                 (demo_instance_1.1, demo_instance_1.2) in
  ∃ e1,
    Instance.executions after.2.1 = Instance.executions demo_instance_1.1 ++ [e1] ∧
    InstanceExecution.meta_data e1
      = <["execution" := PInt (@time_time demo_backend (clock_reads demo_instance_1.2))]>
          (Instance.meta_data demo_instance_1.1) ∧
    InstanceExecution.idx e1 = Instance.idx demo_instance_1.1 ∧
    InstanceExecution.keras_function e1 = Instance.keras_function demo_instance_1.1 ∧
    InstanceExecution.save_models e1 = Instance.save_models demo_instance_1.1 ∧
    InstanceExecution.model e1
      = Model.compile
          (@clone_model demo_backend (tick demo_instance_1.2)
             (Instance.model demo_instance_1.1))
          (Model.optimizer (Instance.model demo_instance_1.1))
          (Model.loss (Instance.model demo_instance_1.1))
          (Model.metrics (Instance.model demo_instance_1.1))
          (Model.loss_weights (Instance.model demo_instance_1.1)) ∧
    (is_raise_of after.1 ∨ recorded e1).
Proof.
  split; [left; reflexivity|].
  apply (@fit_appends_one_execution demo_backend). left. reflexivity.
Defined.

(** X10 on the instance after its first fit, asked to display the base
    model. *)
Lemma fit_displays_summary_once_witness :
  Instance.executions demo_instance_1.1 ≠ [] ∧
  let after := @Instance.fit demo_backend demo_x demo_y false no_kwargs
                 (demo_instance_1.1, demo_instance_1.2) in
  ∃ evs, trace after.2.2 = trace demo_instance_1.2 ++ evs ∧
         Forall (λ e, is_summary e = false) evs.
Proof.
  assert (Hne : Instance.executions demo_instance_1.1 ≠ []) by by vm_compute.
  split; [exact Hne|].
  apply (@fit_displays_summary_once demo_backend). exact Hne.
Defined.

Lemma demo_recorded_1 : Forall recorded (Instance.executions demo_instance_1.1).
Proof.
  assert (Hl : ∃ e1, Instance.executions demo_instance_1.1 = [e1] ∧ recorded e1).
  { eexists. split; [by vm_compute|]. split; [by eexists|split; by eexists]. }
  destruct Hl as (e1 & -> & ?).
  apply List.Forall_cons; [done|]. apply List.Forall_nil.
Qed.

Lemma demo_second_fit :
  (@Instance.fit demo_backend demo_x demo_y false no_kwargs
     (demo_instance_1.1, demo_instance_1.2)).1 = Ok second_history.
Proof. by vm_compute. Qed.

(** X11 on the instance after its first fit. *)
Lemma fit_keeps_executions_recorded_witness :
  Forall recorded (Instance.executions demo_instance_1.1) ∧
  (@Instance.fit demo_backend demo_x demo_y false no_kwargs
     (demo_instance_1.1, demo_instance_1.2)).1 = Ok second_history ∧
  Forall recorded
    (Instance.executions
       (@Instance.fit demo_backend demo_x demo_y false no_kwargs
          (demo_instance_1.1, demo_instance_1.2)).2.1).
Proof.
  split; [exact demo_recorded_1|]. split; [exact demo_second_fit|].
  apply (@fit_keeps_executions_recorded demo_backend demo_x demo_y false no_kwargs
           demo_instance_1.1 demo_instance_1.2 second_history);
    [exact demo_recorded_1|exact demo_second_fit].
Defined.

Lemma failing_backend_fails w0 c : is_raise_of (@train failing_backend w0 c).
Proof. exact I. Qed.

(** X12 on the fresh instance, with a training that runs out of
    memory. *)
Lemma fit_failed_training_leaves_unrecorded_execution_witness :
  (∀ w0 c, is_raise_of (@train failing_backend w0 c)) ∧
  (false = false ∨ Instance.executions demo_instance.1 = []) ∧
  let after := @Instance.fit failing_backend demo_x demo_y false no_kwargs
                 (demo_instance.1, demo_instance.2) in
  is_raise_of after.1 ∧
  ∃ e1, Instance.executions after.2.1 = Instance.executions demo_instance.1 ++ [e1] ∧
        unrecorded e1.
Proof.
  split; [exact failing_backend_fails|]. split; [left; reflexivity|].
  apply (@fit_failed_training_leaves_unrecorded_execution failing_backend);
    [exact failing_backend_fails|left; reflexivity].
Defined.

Lemma failed_instance_raises :
  is_raise_of (@Instance.record_results demo_backend
                 (failed_instance.1, failed_instance.2)).1.
Proof. by vm_compute. Qed.

(** X14 on the instance a failed training left behind. *)
Lemma record_results_raises_without_effect_witness :
  is_raise_of (@Instance.record_results demo_backend
                 (failed_instance.1, failed_instance.2)).1 ∧
  (@Instance.record_results demo_backend (failed_instance.1, failed_instance.2)).2
    = (failed_instance.1, failed_instance.2).
Proof.
  split; [exact failed_instance_raises|].
  apply (@record_results_raises_without_effect demo_backend).
  exact failed_instance_raises.
Defined.



Lemma misdirected_local_dir :
  is_Some (Instance.meta_data misdirected_instance.1 !! "local_dir").
Proof. by eexists. Qed.

Lemma misdirected_recorded :
  Forall recorded (Instance.executions misdirected_instance.1).
Proof.
  assert (Hl : ∃ e1, Instance.executions misdirected_instance.1 = [e1] ∧ recorded e1).
  { eexists. split; [by vm_compute|]. split; [by eexists|split; by eexists]. }
  destruct Hl as (e1 & -> & ?).
  apply List.Forall_cons; [done|]. apply List.Forall_nil.
Qed.

Lemma misdirected_first_pair :
  Forall (λ tm : string * string, tm.2 = "min" ∨ tm.2 = "max") [("acc", "min")].
Proof. repeat constructor. Qed.

Lemma misdirected_acc :
  per_execution mm_min "acc" (Instance.executions misdirected_instance.1) ≠ [].
Proof. by vm_compute. Qed.

(** X17 on an instance whose second key metric asks for maximize. *)
Lemma record_results_unknown_direction_witness :
  is_Some (Instance.meta_data misdirected_instance.1 !! "local_dir") ∧
  Forall recorded (Instance.executions misdirected_instance.1) ∧
  Instance.key_metrics misdirected_instance.1
    = [("acc", "min")] ++ ("acc", "maximize") :: [] ∧
  Forall (λ tm : string * string, tm.2 = "min" ∨ tm.2 = "max") [("acc", "min")] ∧
  "maximize" ≠ "min" ∧ "maximize" ≠ "max" ∧
  per_execution mm_min "acc" (Instance.executions misdirected_instance.1) ≠ [] ∧
  @Instance.record_results demo_backend (misdirected_instance.1, misdirected_instance.2)
    = (Raise (KeyError "maximize"), (misdirected_instance.1, misdirected_instance.2)).
Proof.
  split; [exact misdirected_local_dir|]. split; [exact misdirected_recorded|].
  split; [reflexivity|]. split; [exact misdirected_first_pair|].
  split; [discriminate|]. split; [discriminate|]. split; [exact misdirected_acc|].
  apply (@record_results_unknown_direction demo_backend misdirected_instance.1
           misdirected_instance.2 [("acc", "min")] "acc" "maximize" []);
    [exact misdirected_local_dir|exact misdirected_recorded|reflexivity|
     exact misdirected_first_pair|discriminate|discriminate|exact misdirected_acc].
Defined.

Lemma unrecorded_local_dir :
  is_Some (Instance.meta_data unrecorded_instance.1 !! "local_dir").
Proof. by eexists. Qed.

Lemma unrecorded_execution_id :
  is_Some (InstanceExecution.meta_data (demo_execution "fit").1 !! "execution").
Proof. by eexists. Qed.

(** X18 on an instance whose only execution is as its constructor left
    it. *)
Lemma record_results_unrecorded_execution_witness :
  is_Some (Instance.meta_data unrecorded_instance.1 !! "local_dir") ∧
  Instance.executions unrecorded_instance.1 = [] ++ (demo_execution "fit").1 :: [] ∧
  Forall recorded [] ∧
  is_Some (InstanceExecution.meta_data (demo_execution "fit").1 !! "execution") ∧
  InstanceExecution.metrics (demo_execution "fit").1 = None ∧
  @Instance.record_results demo_backend (unrecorded_instance.1, unrecorded_instance.2)
    = (Raise (AttributeError "InstanceExecution" "metrics"),
       (unrecorded_instance.1, unrecorded_instance.2)).
Proof.
  split; [exact unrecorded_local_dir|]. split; [reflexivity|].
  split; [apply List.Forall_nil|]. split; [exact unrecorded_execution_id|].
  split; [reflexivity|].
  apply (@record_results_unrecorded_execution demo_backend unrecorded_instance.1
           unrecorded_instance.2 [] (demo_execution "fit").1 []);
    [exact unrecorded_local_dir|reflexivity|apply List.Forall_nil|
     exact unrecorded_execution_id|reflexivity].
Defined.

Lemma demo_local_dir_1 : is_Some (Instance.meta_data demo_instance_1.1 !! "local_dir").
Proof. by eexists. Qed.

Lemma flaky_second_fit :
  is_raise_of
    (@InstanceExecution.fit flaky_backend demo_x demo_y no_kwargs
       (@new_execution flaky_backend demo_y no_kwargs
          demo_instance_1.1 demo_instance_1.2)).1.
Proof. by vm_compute. Qed.

(** X19 on the instance after its first fit, with a training that
    succeeded the first time and runs out of memory the second time. *)
Lemma record_results_after_failed_fit_witness :
  (false = false ∨ Instance.executions demo_instance_1.1 = []) ∧
  is_raise_of
    (@InstanceExecution.fit flaky_backend demo_x demo_y no_kwargs
       (@new_execution flaky_backend demo_y no_kwargs
          demo_instance_1.1 demo_instance_1.2)).1 ∧
  is_Some (Instance.meta_data demo_instance_1.1 !! "local_dir") ∧
  Forall recorded (Instance.executions demo_instance_1.1) ∧
  let after := @Instance.fit flaky_backend demo_x demo_y false no_kwargs
                 (demo_instance_1.1, demo_instance_1.2) in
  is_raise_of after.1 ∧
  @Instance.record_results flaky_backend after.2
    = (Raise (AttributeError "InstanceExecution" "metrics"), after.2).
Proof.
  split; [left; reflexivity|]. split; [exact flaky_second_fit|].
  split; [exact demo_local_dir_1|]. split; [exact demo_recorded_1|].
  apply (@record_results_after_failed_fit flaky_backend);
    [left; reflexivity|exact flaky_second_fit|exact demo_local_dir_1|
     exact demo_recorded_1].
Defined.

Lemma demo_first_report :
  (@Instance.record_results demo_backend (demo_instance.1, demo_instance.2)).1
    = Ok (@assemble demo_backend demo_instance.1 [] ∅ ∅).
Proof. reflexivity. Qed.

(** X20 on the fresh instance, the second call in the world the first
    one left. *)
Lemma record_results_twice_witness :
  (@Instance.record_results demo_backend (demo_instance.1, demo_instance.2)).1
    = Ok (@assemble demo_backend demo_instance.1 [] ∅ ∅) ∧
  let again :=
    @Instance.record_results demo_backend
      ((@Instance.record_results demo_backend (demo_instance.1, demo_instance.2)).2.1,
       (@Instance.record_results demo_backend (demo_instance.1, demo_instance.2)).2.2) in
  again.1 = Ok (@assemble demo_backend demo_instance.1 [] ∅ ∅) ∧
  again.2.1
    = (@Instance.record_results demo_backend (demo_instance.1, demo_instance.2)).2.1.
Proof.
  split; [exact demo_first_report|].
  apply (@record_results_twice demo_backend). exact demo_first_report.
Defined.



Lemma demo_names_results_file_1 : names_results_file (Instance.meta_data demo_instance_1.1).
Proof. apply demo_names_results_file. reflexivity. Qed.

Lemma demo_key_metrics_1 :
  Forall (λ tm : string * string, tm.2 = "min" ∨ tm.2 = "max")
    (Instance.key_metrics demo_instance_1.1).
Proof. repeat constructor. Qed.

(** X22 on the instance after its first fit: a second fit, then
    [record_results]. *)
Lemma fit_then_record_results_witness :
  names_results_file (Instance.meta_data demo_instance_1.1) ∧
  Forall recorded (Instance.executions demo_instance_1.1) ∧
  Forall (λ tm : string * string, tm.2 = "min" ∨ tm.2 = "max")
    (Instance.key_metrics demo_instance_1.1) ∧
  (@Instance.fit demo_backend demo_x demo_y false no_kwargs
     (demo_instance_1.1, demo_instance_1.2)).1 = Ok second_history ∧
  let after := @Instance.fit demo_backend demo_x demo_y false no_kwargs
                 (demo_instance_1.1, demo_instance_1.2) in
  ∃ report,
    (@Instance.record_results demo_backend after.2).1 = Ok report ∧
    rp_executions report = execution_info <$> Instance.executions after.2.1 ∧
    Instance.executions after.2.1 ≠ [] ∧
    info_training_size (rp_info report) = Z.of_nat (length demo_y).
Proof.
  split; [exact demo_names_results_file_1|]. split; [exact demo_recorded_1|].
  split; [exact demo_key_metrics_1|]. split; [exact demo_second_fit|].
  apply (@fit_then_record_results demo_backend demo_x demo_y false no_kwargs
           demo_instance_1.1 demo_instance_1.2 second_history);
    [exact demo_names_results_file_1|exact demo_recorded_1|exact demo_key_metrics_1|
     exact demo_second_fit].
Defined.
